(** * flowsy-vue-task: the task controller of [useTask]

    A shallow embedding of the two versions of [useTask] found in the
    repository,

    - [src/src/task.ts]        (module [TaskTs]),
    - [src/unnamed/part_000]   (module [Part000]),

    together with [task-state.ts] and [task-event.ts].

    Conventions of the embedding.

    - A slot that holds [X | undefined] is an [option X]; [None] is
      [undefined].  JavaScript truthiness of the remaining values is the
      class [Truthy].
    - The cells created by [ref] inside [useTask] form the record [Cells];
      [action] and [options], which the closure captures and never
      assigns, are section variables.
    - A function of the controller is a computation in [Js], a state
      monad with exceptions in which a [throw] keeps the writes made
      before it (JavaScript has no rollback).
    - An [async] function is cut at its [await]: the part that runs
      synchronously when the function is called ([execute_sync],
      [reset_sync]) returns the promise it awaits, and the continuation
      ([execute_resume], [reset_resume]) takes that promise once it has
      settled.  Other calls may run between the two.
    - Calls that leave the controller (hook callbacks, the action, the
      abort capability, the argument factory, the console) are recorded,
      in order, in the [log] of the cells.  A hook receives the event
      context; its getters read the cells when the callback runs, so the
      recorded context is the content of the cells at the call.
      Callbacks are observers: they neither throw nor call back into the
      controller.
    - The action is a function from the argument it is called with to the
      settlement of the promise it returns; an action that throws before
      returning a promise counts as one whose promise rejects. *)

From Stdlib Require Import List String Bool ZArith Lia.
Import ListNotations.
Open Scope string_scope.
Open Scope list_scope.

Set Implicit Arguments.

(* ------------------------------------------------------------------ *)
(** * JavaScript values: [undefined] and truthiness *)

Class Truthy (X : Type) := truthy : X -> bool.

#[export] Instance Truthy_bool : Truthy bool := fun b => b.
#[export] Instance Truthy_string : Truthy string :=
  fun s => negb (String.eqb s EmptyString).
(** Numbers, restricted to integers: [0] is the falsy one. *)
#[export] Instance Truthy_Z : Truthy Z := fun z => negb (Z.eqb z 0).

(** [ToBoolean] of a value that may be [undefined]. *)
Definition toBoolean {X : Type} `{Truthy X} (v : option X) : bool :=
  match v with
  | Some x => truthy x
  | None => false
  end.

(** [v || undefined]. *)
Definition orUndefined {X : Type} `{Truthy X} (v : option X) : option X :=
  if toBoolean v then v else None.

(** A settled promise. *)
Inductive Promise (X E : Type) : Type :=
| Fulfilled (value : X)
| Rejected (reason : option E).
Arguments Fulfilled {X E} value.
Arguments Rejected {X E} reason.

(* ------------------------------------------------------------------ *)
(** * task-state.ts *)

Inductive TaskState : Type := Idle | Executing | Completed | Failed | Aborted.

Definition TaskState_eqb (x y : TaskState) : bool :=
  match x, y with
  | Idle, Idle | Executing, Executing | Completed, Completed
  | Failed, Failed | Aborted, Aborted => true
  | _, _ => false
  end.

(** [options.tag]: a string or a function producing one. *)
Inductive TagOption : Type :=
| TagString (s : string)
| TagFunction (f : unit -> string).

(** The four [new Error(...)] raised by the controller, by the guard that
    raises them. *)
Inductive Guard : Type :=
  AlreadyExecuting | CannotExecute | CannotAbort | CannotReset.

Inductive HookKind : Type :=
  OnIdle | OnExecuting | OnCompleted | OnFailed | OnAborted | OnFinished.

Definition HookKind_eqb (x y : HookKind) : bool :=
  match x, y with
  | OnIdle, OnIdle | OnExecuting, OnExecuting | OnCompleted, OnCompleted
  | OnFailed, OnFailed | OnAborted, OnAborted | OnFinished, OnFinished => true
  | _, _ => false
  end.

(* ------------------------------------------------------------------ *)
(** * The cells of one controller, and the monad of its functions *)

Section Controller.

(** Argument, result and failure payloads, and callback identities. *)
Context {A R E Fn : Type}.

(** task-event.ts: [TaskEventContext]. *)
Record TaskEventContext : Type := {
  ctx_state : TaskState;
  ctx_argument : option A;
  ctx_result : option R;
  ctx_error : option E
}.

Inductive Event : Type :=
| HookCall (kind : HookKind) (fn : Fn) (context : TaskEventContext)
| ActionCall (arg : option A)
| AbortCall (fn : Fn) (arg : option A)
| CreateArgumentCall
| ConsoleDebug (message : string) (context : TaskEventContext)
| ConsoleError (message : string) (context : TaskEventContext).

Record Cells : Type := {
  argument : option A;
  state : TaskState;
  result : option R;
  error : option E;
  onIdleHooks : list Fn;
  onExecutingHooks : list Fn;
  onCompletedHooks : list Fn;
  onFailedHooks : list Fn;
  onAbortedHooks : list Fn;
  onFinishedHooks : list Fn;
  (** [globalOptions.debug] *)
  debug : option bool;
  log : list Event
}.

Inductive Thrown : Type :=
| JsError (guard : Guard) (message : string)
| Rejection (payload : option E).

Inductive Completion (X : Type) : Type :=
| Normal (x : X)
| Throw (e : Thrown).
Arguments Normal {X} x.
Arguments Throw {X} e.

Definition Js (X : Type) : Type := Cells -> Completion X * Cells.

Definition ret {X : Type} (x : X) : Js X := fun c => (Normal x, c).

Definition bind {X Y : Type} (m : Js X) (k : X -> Js Y) : Js Y :=
  fun c =>
    match m c with
    | (Normal x, c') => k x c'
    | (Throw e, c') => (Throw e, c')
    end.

Definition throw {X : Type} (e : Thrown) : Js X := fun c => (Throw e, c).

Definition gets {X : Type} (f : Cells -> X) : Js X := fun c => (Normal (f c), c).

Definition modify (f : Cells -> Cells) : Js unit := fun c => (Normal tt, f c).

Definition when (b : bool) (m : Js unit) : Js unit := if b then m else ret tt.

(** ** Writes to the cells *)

Definition with_argument (v : option A) (c : Cells) : Cells :=
  {| argument := v; state := state c; result := result c; error := error c;
     onIdleHooks := onIdleHooks c; onExecutingHooks := onExecutingHooks c;
     onCompletedHooks := onCompletedHooks c; onFailedHooks := onFailedHooks c;
     onAbortedHooks := onAbortedHooks c; onFinishedHooks := onFinishedHooks c;
     debug := debug c; log := log c |}.

Definition with_state (v : TaskState) (c : Cells) : Cells :=
  {| argument := argument c; state := v; result := result c; error := error c;
     onIdleHooks := onIdleHooks c; onExecutingHooks := onExecutingHooks c;
     onCompletedHooks := onCompletedHooks c; onFailedHooks := onFailedHooks c;
     onAbortedHooks := onAbortedHooks c; onFinishedHooks := onFinishedHooks c;
     debug := debug c; log := log c |}.

Definition with_result (v : option R) (c : Cells) : Cells :=
  {| argument := argument c; state := state c; result := v; error := error c;
     onIdleHooks := onIdleHooks c; onExecutingHooks := onExecutingHooks c;
     onCompletedHooks := onCompletedHooks c; onFailedHooks := onFailedHooks c;
     onAbortedHooks := onAbortedHooks c; onFinishedHooks := onFinishedHooks c;
     debug := debug c; log := log c |}.

Definition with_error (v : option E) (c : Cells) : Cells :=
  {| argument := argument c; state := state c; result := result c; error := v;
     onIdleHooks := onIdleHooks c; onExecutingHooks := onExecutingHooks c;
     onCompletedHooks := onCompletedHooks c; onFailedHooks := onFailedHooks c;
     onAbortedHooks := onAbortedHooks c; onFinishedHooks := onFinishedHooks c;
     debug := debug c; log := log c |}.

Definition with_debug (v : option bool) (c : Cells) : Cells :=
  {| argument := argument c; state := state c; result := result c; error := error c;
     onIdleHooks := onIdleHooks c; onExecutingHooks := onExecutingHooks c;
     onCompletedHooks := onCompletedHooks c; onFailedHooks := onFailedHooks c;
     onAbortedHooks := onAbortedHooks c; onFinishedHooks := onFinishedHooks c;
     debug := v; log := log c |}.

Definition with_log (v : list Event) (c : Cells) : Cells :=
  {| argument := argument c; state := state c; result := result c; error := error c;
     onIdleHooks := onIdleHooks c; onExecutingHooks := onExecutingHooks c;
     onCompletedHooks := onCompletedHooks c; onFailedHooks := onFailedHooks c;
     onAbortedHooks := onAbortedHooks c; onFinishedHooks := onFinishedHooks c;
     debug := debug c; log := v |}.

(** [hooks.push(fn)] on the registry of [kind]. *)
Definition push (kind : HookKind) (fn : Fn) (c : Cells) : Cells :=
  let add (k : HookKind) (l : list Fn) : list Fn :=
    if HookKind_eqb kind k then l ++ [fn] else l in
  {| argument := argument c; state := state c; result := result c; error := error c;
     onIdleHooks := add OnIdle (onIdleHooks c);
     onExecutingHooks := add OnExecuting (onExecutingHooks c);
     onCompletedHooks := add OnCompleted (onCompletedHooks c);
     onFailedHooks := add OnFailed (onFailedHooks c);
     onAbortedHooks := add OnAborted (onAbortedHooks c);
     onFinishedHooks := add OnFinished (onFinishedHooks c);
     debug := debug c; log := log c |}.

Definition hooks (kind : HookKind) (c : Cells) : list Fn :=
  match kind with
  | OnIdle => onIdleHooks c
  | OnExecuting => onExecutingHooks c
  | OnCompleted => onCompletedHooks c
  | OnFailed => onFailedHooks c
  | OnAborted => onAbortedHooks c
  | OnFinished => onFinishedHooks c
  end.

Definition emit (e : Event) : Js unit :=
  modify (fun c => with_log (log c ++ [e]) c).

(** ** The derived flags, [computed] from [state] *)

Definition isIdle (c : Cells) : bool := TaskState_eqb (state c) Idle.
Definition isExecuting (c : Cells) : bool := TaskState_eqb (state c) Executing.
Definition isCompleted (c : Cells) : bool := TaskState_eqb (state c) Completed.
Definition isFailed (c : Cells) : bool := TaskState_eqb (state c) Failed.
Definition isAborted (c : Cells) : bool := TaskState_eqb (state c) Aborted.
Definition isFinished (c : Cells) : bool :=
  isCompleted c || isFailed c || isAborted c.

(** ** [createEventContext] and hook dispatch *)

(** What the getters of the context return when read against [c]. *)
Definition snapshot (c : Cells) : TaskEventContext :=
  {| ctx_state := state c; ctx_argument := argument c;
     ctx_result := result c; ctx_error := error c |}.

Definition createEventContext : Js TaskEventContext := gets snapshot.

(** [array.forEach(body)] *)
Fixpoint forEach (l : list Fn) (body : Fn -> Js unit) : Js unit :=
  match l with
  | [] => ret tt
  | fn :: rest => bind (body fn) (fun _ => forEach rest body)
  end.

(** [fn(eventContext)]: the callback observes the cells as they are. *)
Definition callHook (kind : HookKind) (fn : Fn) : Js unit :=
  bind createEventContext (fun context => emit (HookCall kind fn context)).

Definition dispatch (kind : HookKind) : Js unit :=
  bind (gets (hooks kind)) (fun l => forEach l (callHook kind)).

(** The calls one dispatch adds to the log. *)
Definition hookCalls (kind : HookKind) (context : TaskEventContext)
    (l : list Fn) : list Event :=
  map (fun fn => HookCall kind fn context) l.

(** ** Registration: [onIdle(fn)], [onExecuting(fn)], ... *)

Definition register (kind : HookKind) (fn : Fn) : Js unit := modify (push kind fn).

(** ** [configureTasks] *)

Definition configureTasks (options_debug : option bool) : Js unit :=
  modify (with_debug options_debug).

(** [globalOptions.debug && console.debug(message, eventContext)] *)
Definition consoleDebug (message : string) : Js unit :=
  bind (gets debug) (fun d =>
    when (toBoolean d)
      (bind createEventContext (fun context => emit (ConsoleDebug message context)))).

Definition consoleError (message : string) : Js unit :=
  bind createEventContext (fun context => emit (ConsoleError message context)).

(** ** The calls one step of [execute] adds to the log *)

(** The record [console.debug] writes, if the debug toggle lets it. *)
Definition debugRecord (message : string) (c : Cells) : list Event :=
  if toBoolean (debug c) then [ConsoleDebug message (snapshot c)] else [].

(** The calls [execute] makes between entering [Executing] and its
    [await], against the cells [c] it has just written; [t] is
    [tag.value || "Anonymous"]. *)
Definition executingCalls (t : string) (c : Cells) : list Event :=
  debugRecord ("Task executing [" ++ t ++ "]")%string c
  ++ hookCalls OnExecuting (snapshot c) (onExecutingHooks c)
  ++ [ActionCall (argument c)].

(** The calls of the [finally] block after a fulfilment. *)
Definition completedCalls (t : string) (c : Cells) : list Event :=
  debugRecord ("Task completed [" ++ t ++ "]")%string c
  ++ hookCalls OnCompleted (snapshot c) (onCompletedHooks c)
  ++ hookCalls OnFinished (snapshot c) (onFinishedHooks c).

(** The calls of the [finally] block after a rejection. *)
Definition failedCalls (t : string) (c : Cells) : list Event :=
  [ConsoleError ("Task failed [" ++ t ++ "]")%string (snapshot c)]
  ++ hookCalls OnFailed (snapshot c) (onFailedHooks c)
  ++ hookCalls OnFinished (snapshot c) (onFinishedHooks c).

(** [if (a) { argument.value = a; }] *)
Definition store `{Truthy A} (a : option A) (c : Cells) : Cells :=
  if toBoolean a then with_argument a c else c.

(** The argument [execute] works with: the one supplied when it is truthy,
    the stored one otherwise. *)
Definition effective `{Truthy A} (a : option A) (c : Cells) : option A :=
  if toBoolean a then a else argument c.

(** The cells right after the [ref]s of [useTask] are created, in a module
    whose [globalOptions] still has its initial [debug: false]; [useTask]
    itself does not write the toggle, and a controller built after
    [configureTasks(d)] is [configureTasks d] applied to these cells. *)
Definition fresh (arg : option A) : Cells :=
  {| argument := arg; state := Idle; result := None; error := None;
     onIdleHooks := []; onExecutingHooks := []; onCompletedHooks := [];
     onFailedHooks := []; onAbortedHooks := []; onFinishedHooks := [];
     debug := Some false; log := [] |}.

End Controller.

Arguments TaskEventContext : clear implicits.
Arguments Event : clear implicits.
Arguments Cells : clear implicits.
Arguments Thrown : clear implicits.
Arguments Completion : clear implicits.
Arguments Js : clear implicits.
Arguments Normal {E X} x.
Arguments Throw {E X} e.

Declare Scope js_scope.
Delimit Scope js_scope with js.
Notation "x <- m ;; k" := (bind m (fun x => k))
  (at level 61, m at next level, right associativity) : js_scope.
Notation "m ;; k" := (bind m (fun _ => k))
  (at level 61, right associativity) : js_scope.

(* ------------------------------------------------------------------ *)
(** * Text of the errors and of the console records (same in both versions) *)

(** [tag.value ? a(tag.value) : b] *)
Definition withTag (tag : option string) (a : string -> string) (b : string) : string :=
  match tag with
  | Some t => if truthy t then a t else b
  | None => b
  end.

(** The abort and reset messages are a template literal, the tag followed
    by a full stop or nothing, passed through [trim()]; [trim] only removes
    the blank left at the end when there is no tag. *)
Definition message (g : Guard) (tag : option string) : string :=
  match g with
  | AlreadyExecuting =>
      withTag tag (fun t => "Task " ++ t ++ " is already executing.")
        "Task already executing."
  | CannotExecute =>
      withTag tag (fun t => "Cannot execute task " ++ t) "Cannot execute task."
  | CannotAbort =>
      withTag tag (fun t => "Cannot abort task " ++ t ++ ".") "Cannot abort task"
  | CannotReset =>
      withTag tag (fun t => "Cannot reset task " ++ t ++ ".") "Cannot reset task"
  end%string.

(** [tag.value || "Anonymous"] *)
Definition tagOrAnonymous (tag : option string) : string :=
  withTag tag (fun t => t) "Anonymous".

(* ------------------------------------------------------------------ *)
(** * src/src/task.ts *)

Module TaskTs.
Section useTask.

Context {A R E Fn : Type} `{Truthy A} `{Truthy E}.

Local Abbreviation Js := (Js A R E Fn).
Local Abbreviation Cells := (Cells A R E Fn).
Local Open Scope js_scope.

Record TaskOptions : Type := {
  options_tag : option TagOption;
  options_createArgument : option (unit -> option A);
  options_canExecute : option (option A -> bool);
  options_abort : option Fn
}.

Variable action : option A -> Promise (option R) E.
Variable options : option TaskOptions.

(** [options?.f] *)
Definition optional {X : Type} (f : TaskOptions -> option X) : option X :=
  match options with
  | Some o => f o
  | None => None
  end.

Definition tag : option string :=
  match optional options_tag with
  | None => None
  | Some (TagString s) => if truthy s then Some s else None
  | Some (TagFunction f) => Some (f tt)
  end.

Definition canExecute (c : Cells) : bool :=
  match optional options_canExecute with
  | Some f => f (argument c)
  | None => true
  end.

Definition canAbort (c : Cells) : bool :=
  match optional options_abort with
  | Some _ => true
  | None => false
  end.

(** The cells when [useTask] returns. *)
Definition useTask : Cells :=
  match optional options_createArgument with
  | Some f => with_log [CreateArgumentCall] (fresh (f tt))
  | None => fresh None
  end.

(** [action(argument.value)]: the call is made, its promise is pending. *)
Definition callAction (arg : option A) : Js (Promise (option R) E) :=
  emit (ActionCall arg) ;; ret (action arg).

(** [execute], from its call to the [await]. *)
Definition execute_sync (a : option A) : Js (Promise (option R) E) :=
  executing <- gets isExecuting ;;
  if executing : bool then throw (JsError AlreadyExecuting (message AlreadyExecuting tag))
  else
    when (toBoolean a) (modify (with_argument a)) ;;
    able <- gets canExecute ;;
    if negb able then throw (JsError CannotExecute (message CannotExecute tag))
    else
      modify (with_state Executing) ;;
      modify (with_result None) ;;
      modify (with_error None) ;;
      consoleDebug ("Task executing [" ++ tagOrAnonymous tag ++ "]")%string ;;
      dispatch OnExecuting ;;
      arg <- gets argument ;;
      callAction arg.

(** [execute], from the settlement of the awaited promise to its end. *)
Definition execute_resume (p : Promise (option R) E) : Js (option R) :=
  match p with
  | Fulfilled v => modify (with_result v) ;; modify (with_state Completed)
  | Rejected e => modify (with_error e) ;; modify (with_state Failed)
  end ;;
  completed <- gets isCompleted ;;
  failed <- gets isFailed ;;
  (if completed : bool then
     consoleDebug ("Task completed [" ++ tagOrAnonymous tag ++ "]")%string ;;
     dispatch OnCompleted
   else if failed : bool then
     consoleError ("Task failed [" ++ tagOrAnonymous tag ++ "]")%string ;;
     dispatch OnFailed
   else ret tt) ;;
  dispatch OnFinished ;;
  err <- gets error ;;
  if toBoolean err then throw (Rejection err)
  else gets result.

(** A run of [execute] that nothing interrupts at the [await]. *)
Definition execute (a : option A) : Js (option R) :=
  p <- execute_sync a ;; execute_resume p.

Definition abort : Js unit :=
  executing <- gets isExecuting ;;
  able <- gets canAbort ;;
  match negb executing || negb able, optional options_abort with
  | false, Some fn =>
      modify (with_state Aborted) ;;
      arg <- gets argument ;;
      emit (AbortCall fn arg) ;;
      dispatch OnAborted
  | _, _ => throw (JsError CannotAbort (message CannotAbort tag))
  end.

Definition reset : Js unit :=
  executing <- gets isExecuting ;;
  if executing : bool then throw (JsError CannotReset (message CannotReset tag))
  else
    modify (with_state Idle) ;;
    match optional options_createArgument with
    | Some f => emit CreateArgumentCall ;; modify (with_argument (f tt))
    | None => modify (with_argument None)
    end ;;
    modify (with_result None) ;;
    modify (with_error None) ;;
    dispatch OnIdle.

(** ** The cells each step leaves behind, in closed form

    [execute_sync_started], [execute_resume_fulfilled] and
    [execute_resume_rejected] below prove that the steps compute them. *)

Definition started (a : option A) (c : Cells) : Cells :=
  let c' := with_error None (with_result None (with_state Executing (store a c))) in
  with_log (log c ++ executingCalls (tagOrAnonymous tag) c') c'.

Definition completed (v : option R) (c : Cells) : Cells :=
  let c' := with_state Completed (with_result v c) in
  with_log (log c ++ completedCalls (tagOrAnonymous tag) c') c'.

Definition failed (e : option E) (c : Cells) : Cells :=
  let c' := with_state Failed (with_error e c) in
  with_log (log c ++ failedCalls (tagOrAnonymous tag) c') c'.

(** What a successful [abort] leaves; [fn] is [options.abort]. *)
Definition aborted (fn : Fn) (c : Cells) : Cells :=
  let c' := with_state Aborted c in
  with_log (log c ++ [AbortCall fn (argument c)]
                  ++ hookCalls OnAborted (snapshot c') (onAbortedHooks c)) c'.

(** The argument a reset installs: the factory's output, or [undefined]. *)
Definition createdArgument : option A :=
  match optional options_createArgument with
  | Some f => f tt
  | None => None
  end.

Definition factoryCalls : list (Event A R E Fn) :=
  match optional options_createArgument with
  | Some _ => [CreateArgumentCall]
  | None => []
  end.

(** What a successful [reset] leaves. *)
Definition idle (c : Cells) : Cells :=
  let c' := with_error None (with_result None
              (with_argument createdArgument (with_state Idle c))) in
  with_log (log c ++ factoryCalls
                  ++ hookCalls OnIdle (snapshot c') (onIdleHooks c)) c'.

End useTask.
End TaskTs.

(* ------------------------------------------------------------------ *)
(** * src/unnamed/part_000 *)

Module Part000.
Section useTask.

Context {A R E Fn : Type} `{Truthy A} `{Truthy R} `{Truthy E}.

Local Abbreviation Js := (Js A R E Fn).
Local Abbreviation Cells := (Cells A R E Fn).
Local Open Scope js_scope.

Record TaskOptions : Type := {
  options_tag : option TagOption;
  options_argument : option A;
  options_canExecute : option (option A -> bool);
  options_canAbort : option (option A -> bool);
  options_abort : option Fn;
  options_createArgument : option (unit -> Promise (option A) E);
  options_throwOnFail : option bool
}.

Variable action : option A -> Promise (option R) E.
Variable options : option TaskOptions.

(** [options?.f] *)
Definition optional {X : Type} (f : TaskOptions -> option X) : option X :=
  match options with
  | Some o => f o
  | None => None
  end.

Definition tag : option string :=
  match optional options_tag with
  | None => None
  | Some (TagString s) => Some s
  | Some (TagFunction f) => Some (f tt)
  end.

Definition canExecute (c : Cells) : bool :=
  match optional options_canExecute with
  | Some f => f (argument c)
  | None => true
  end.

Definition canAbort (c : Cells) : bool :=
  match optional options_canAbort with
  | Some f => f (argument c)
  | None => false
  end.

(** The cells when [useTask] returns. *)
Definition useTask : Cells :=
  if toBoolean (optional options_argument)
  then fresh (optional options_argument)
  else fresh None.

(** [action(argument.value)]: the call is made, its promise is pending. *)
Definition callAction (arg : option A) : Js (Promise (option R) E) :=
  emit (ActionCall arg) ;; ret (action arg).

(** [execute], from its call to the [await]. *)
Definition execute_sync (a : option A) : Js (Promise (option R) E) :=
  executing <- gets isExecuting ;;
  if executing : bool then throw (JsError AlreadyExecuting (message AlreadyExecuting tag))
  else
    when (toBoolean a) (modify (with_argument a)) ;;
    able <- gets canExecute ;;
    if negb able then throw (JsError CannotExecute (message CannotExecute tag))
    else
      modify (with_state Executing) ;;
      modify (with_result None) ;;
      consoleDebug ("Task executing [" ++ tagOrAnonymous tag ++ "]")%string ;;
      dispatch OnExecuting ;;
      arg <- gets argument ;;
      if toBoolean arg then callAction arg else callAction arg.

(** [execute], from the settlement of the awaited promise to its end. *)
Definition execute_resume (p : Promise (option R) E) : Js (option R) :=
  match p with
  | Fulfilled v => modify (with_result (orUndefined v)) ;; modify (with_state Completed)
  | Rejected e => modify (with_error e) ;; modify (with_state Failed)
  end ;;
  completed <- gets isCompleted ;;
  failed <- gets isFailed ;;
  (if completed : bool then
     consoleDebug ("Task completed [" ++ tagOrAnonymous tag ++ "]")%string ;;
     dispatch OnCompleted
   else if failed : bool then
     consoleError ("Task failed [" ++ tagOrAnonymous tag ++ "]")%string ;;
     dispatch OnFailed
   else ret tt) ;;
  dispatch OnFinished ;;
  err <- gets error ;;
  if toBoolean err
     && match options with Some _ => true | None => false end
     && toBoolean (optional options_throwOnFail)
  then throw (Rejection err)
  else gets result.

(** A run of [execute] that nothing interrupts at the [await]. *)
Definition execute (a : option A) : Js (option R) :=
  p <- execute_sync a ;; execute_resume p.

Definition abort : Js unit :=
  executing <- gets isExecuting ;;
  able <- gets canAbort ;;
  if negb executing || negb able
     || negb (match optional options_abort, optional options_canAbort with
              | Some _, Some _ => true
              | _, _ => false
              end)
  then throw (JsError CannotAbort (message CannotAbort tag))
  else
    modify (with_state Aborted) ;;
    dispatch OnAborted.

(** [reset], from its call to the [await] of the argument factory; when no
    factory is configured there is no [await] and [reset] runs to its end
    ([None] is returned). *)
Definition reset_sync : Js (option (Promise (option A) E)) :=
  executing <- gets isExecuting ;;
  if executing : bool then throw (JsError CannotReset (message CannotReset tag))
  else
    modify (with_state Idle) ;;
    match optional options_createArgument with
    | Some f =>
        emit CreateArgumentCall ;;
        ret (Some (f tt))
    | None =>
        modify (with_argument None) ;;
        modify (with_result None) ;;
        modify (with_error None) ;;
        dispatch OnIdle ;;
        ret None
    end.

(** [reset], from the settlement of the factory's promise to its end. *)
Definition reset_resume (p : Promise (option A) E) : Js unit :=
  match p with
  | Fulfilled v =>
      modify (with_argument v) ;;
      modify (with_result None) ;;
      modify (with_error None) ;;
      dispatch OnIdle
  | Rejected e => throw (Rejection e)
  end.

(** A run of [reset] that nothing interrupts at the [await]. *)
Definition reset : Js unit :=
  pending <- reset_sync ;;
  match pending with
  | Some p => reset_resume p
  | None => ret tt
  end.

(** ** The cells each step leaves behind, in closed form

    [execute_sync_started], [execute_resume_fulfilled] and
    [execute_resume_rejected] below prove that the steps compute them.
    Entering [Executing] does not write the error slot here. *)

Definition started (a : option A) (c : Cells) : Cells :=
  let c' := with_result None (with_state Executing (store a c)) in
  with_log (log c ++ executingCalls (tagOrAnonymous tag) c') c'.

Definition completed (v : option R) (c : Cells) : Cells :=
  let c' := with_state Completed (with_result (orUndefined v) c) in
  with_log (log c ++ completedCalls (tagOrAnonymous tag) c') c'.

Definition failed (e : option E) (c : Cells) : Cells :=
  let c' := with_state Failed (with_error e c) in
  with_log (log c ++ failedCalls (tagOrAnonymous tag) c') c'.

(** [options && !!options.throwOnFail] *)
Definition throwOnFail : bool :=
  match options with
  | Some o => toBoolean (options_throwOnFail o)
  | None => false
  end.

(** What a successful [abort] leaves. *)
Definition aborted (c : Cells) : Cells :=
  let c' := with_state Aborted c in
  with_log (log c ++ hookCalls OnAborted (snapshot c') (onAbortedHooks c)) c'.

(** The argument a reset installs when the factory, if there is one,
    fulfils with [v]. *)
Definition createdArgument (v : option A) : option A :=
  match optional options_createArgument with
  | Some _ => v
  | None => None
  end.

Definition factoryCalls : list (Event A R E Fn) :=
  match optional options_createArgument with
  | Some _ => [CreateArgumentCall]
  | None => []
  end.

(** What a successful [reset] leaves. *)
Definition idle (v : option A) (c : Cells) : Cells :=
  let c' := with_error None (with_result None
              (with_argument (createdArgument v) (with_state Idle c))) in
  with_log (log c ++ factoryCalls
                  ++ hookCalls OnIdle (snapshot c') (onIdleHooks c)) c'.

End useTask.
End Part000.

(* ------------------------------------------------------------------ *)
(** * Concrete controllers

    Arguments and results are numbers, failure payloads and callbacks are
    named by strings. *)

Module Examples.

Local Open Scope Z_scope.
Local Open Scope js_scope.

(** An action in the manner of the README's [sum]: it rejects with
    ["boom"] on a negative argument, rejects with [undefined] when it is
    given no argument, and otherwise fulfils with twice the argument. *)
Definition checked (a : option Z) : Promise (option Z) string :=
  match a with
  | Some n => if n <? 0 then Rejected (Some "boom") else Fulfilled (Some (2 * n))
  | None => Rejected None
  end.

(** [canExecute: a => a > 0] *)
Definition positive (a : option Z) : bool :=
  match a with
  | Some n => 0 <? n
  | None => false
  end.

(** No options at all. *)
Definition ts_none : option (@TaskTs.TaskOptions Z string) := None.
Definition p0_none : option (@Part000.TaskOptions Z string string) := None.

(** Every option set. *)
Definition ts_full : option (@TaskTs.TaskOptions Z string) :=
  Some {| TaskTs.options_tag := Some (TagString "Sum");
          TaskTs.options_createArgument := Some (fun _ => Some 1);
          TaskTs.options_canExecute := Some positive;
          TaskTs.options_abort := Some "cancel" |}.

Definition p0_full : option (@Part000.TaskOptions Z string string) :=
  Some {| Part000.options_tag := Some (TagString "Sum");
          Part000.options_argument := Some 1;
          Part000.options_canExecute := Some positive;
          Part000.options_canAbort := Some (fun _ => true);
          Part000.options_abort := Some "cancel";
          Part000.options_createArgument := Some (fun _ => Fulfilled (Some 1));
          Part000.options_throwOnFail := Some true |}.

(** Only [throwOnFail: true]. *)
Definition p0_throwing : option (@Part000.TaskOptions Z string string) :=
  Some {| Part000.options_tag := None;
          Part000.options_argument := None;
          Part000.options_canExecute := None;
          Part000.options_canAbort := None;
          Part000.options_abort := None;
          Part000.options_createArgument := None;
          Part000.options_throwOnFail := Some true |}.

(** A controller holding the argument [1], with one callback in each
    registry. *)
Definition listening : Cells Z Z string string :=
  snd ((register OnIdle "idle" ;;
        register OnExecuting "executing" ;;
        register OnCompleted "completed" ;;
        register OnFailed "failed" ;;
        register OnAborted "aborted" ;;
        register OnFinished "finished") (fresh (Some 1))).

(** The same controller while an execution is in flight. *)
Definition executing : Cells Z Z string string := with_state Executing listening.

(** The same controller after an execution that failed with ["boom"]. *)
Definition finished : Cells Z Z string string :=
  with_state Failed (with_error (Some "boom") listening).

(** [execute()], then [abort()] during the [await], then the fulfilment of
    the action, in [src/unnamed/part_000] ... *)
Definition p0_inFlight := Part000.execute_sync checked p0_full None listening.
Definition p0_afterAbort := Part000.abort p0_full (snd p0_inFlight).
Definition p0_afterSettlement :=
  Part000.execute_resume p0_full (checked (Some 1)) (snd p0_afterAbort).

(** ... and in [src/src/task.ts]. *)
Definition ts_inFlight := TaskTs.execute_sync checked ts_full None listening.
Definition ts_afterAbort := TaskTs.abort ts_full (snd ts_inFlight).
Definition ts_afterSettlement :=
  TaskTs.execute_resume ts_full (checked (Some 1)) (snd ts_afterAbort).

(** [execute(-1)], which fails with ["boom"], then [execute(3)] up to its
    [await]. *)
Definition p0_retry :=
  Part000.execute_sync checked p0_none (Some 3)
    (snd (Part000.execute checked p0_none (Some (-1)) listening)).

Definition ts_retry :=
  TaskTs.execute_sync checked ts_none (Some 3)
    (snd (TaskTs.execute checked ts_none (Some (-1)) listening)).

End Examples.

(* ------------------------------------------------------------------ *)
(** * Reading the log *)

Section Log.

Context {A R E Fn : Type}.

Definition isHookCall (e : Event A R E Fn) : bool :=
  match e with
  | HookCall _ _ _ => true
  | _ => false
  end.

Definition isConsole (e : Event A R E Fn) : bool :=
  match e with
  | ConsoleDebug _ _ | ConsoleError _ _ => true
  | _ => false
  end.

(** The callbacks called, in order. *)
Definition hookCallsIn (l : list (Event A R E Fn)) : list (Event A R E Fn) :=
  filter isHookCall l.

(** The records written to the console, in order. *)
Definition consoleIn (l : list (Event A R E Fn)) : list (Event A R E Fn) :=
  filter isConsole l.

(** The registries and the debug toggle of [c'] are those of [c]. *)
Definition sameRegistries (c c' : Cells A R E Fn) : Prop :=
  (forall kind, hooks kind c' = hooks kind c) /\ debug c' = debug c.

(** The controller is not in the middle of an execution. *)
Definition quiescent (c : Cells A R E Fn) : Prop :=
  state c = Idle \/ state c = Completed \/ state c = Failed.

(** The slots agree with the state: nothing but the argument when [Idle],
    no error when [Completed], no result when [Failed]. *)
Definition atRest (c : Cells A R E Fn) : Prop :=
  (state c = Idle /\ result c = None /\ error c = None)
  \/ (state c = Completed /\ error c = None)
  \/ (state c = Failed /\ result c = None).

End Log.

(* ------------------------------------------------------------------ *)
(** * Sequences of calls

    A caller that makes one call after the other, waits for each promise
    to settle before the next call, and catches whatever a call throws. *)

Section Sequences.

Context {A R E Fn : Type} `{Truthy A} `{Truthy R} `{Truthy E}.

Variable action : option A -> Promise (option R) E.
Variable ts_options : option (@TaskTs.TaskOptions A Fn).
Variable p0_options : option (@Part000.TaskOptions A E Fn).

Inductive Call : Type :=
| CallExecute (a : option A)
| CallAbort
| CallReset
| CallRegister (kind : HookKind) (fn : Fn)
| CallConfigure (options_debug : option bool).

Definition ts_perform (c : Cells A R E Fn) (call : Call) : Cells A R E Fn :=
  match call with
  | CallExecute a => snd (TaskTs.execute action ts_options a c)
  | CallAbort => snd (TaskTs.abort ts_options c)
  | CallReset => snd (TaskTs.reset ts_options c)
  | CallRegister kind fn => snd (register kind fn c)
  | CallConfigure d => snd (configureTasks d c)
  end.

Definition p0_perform (c : Cells A R E Fn) (call : Call) : Cells A R E Fn :=
  match call with
  | CallExecute a => snd (Part000.execute action p0_options a c)
  | CallAbort => snd (Part000.abort p0_options c)
  | CallReset => snd (Part000.reset p0_options c)
  | CallRegister kind fn => snd (register kind fn c)
  | CallConfigure d => snd (configureTasks d c)
  end.

(** The cells after the calls, made on a controller just built. *)
Definition ts_run (calls : list Call) : Cells A R E Fn :=
  fold_left ts_perform calls (TaskTs.useTask ts_options).

Definition p0_run (calls : list Call) : Cells A R E Fn :=
  fold_left p0_perform calls (Part000.useTask p0_options).

End Sequences.

Arguments Call : clear implicits.

(* ------------------------------------------------------------------ *)
(** * More concrete controllers *)

Module MoreExamples.

Local Open Scope Z_scope.

(** [createArgument] whose promise rejects with ["offline"]. *)
Definition p0_failingFactory : option (@Part000.TaskOptions Z string string) :=
  Some {| Part000.options_tag := None;
          Part000.options_argument := Some 4;
          Part000.options_canExecute := None;
          Part000.options_canAbort := None;
          Part000.options_abort := None;
          Part000.options_createArgument := Some (fun _ => Rejected (Some "offline"));
          Part000.options_throwOnFail := None |}.

(** [argument: 0] *)
Definition p0_zero : option (@Part000.TaskOptions Z string string) :=
  Some {| Part000.options_tag := None;
          Part000.options_argument := Some 0;
          Part000.options_canExecute := None;
          Part000.options_canAbort := None;
          Part000.options_abort := None;
          Part000.options_createArgument := None;
          Part000.options_throwOnFail := None |}.

(** A controller that completed with result [2]. *)
Definition completedOnce : Cells Z Z string string :=
  with_state Completed (with_result (Some 2) Examples.listening).

End MoreExamples.

(* ------------------------------------------------------------------ *)
(** * Running the monad: equations used by every proof below *)

Unset Implicit Arguments.

Section Running.

Context {A R E Fn : Type} `{Truthy A}.

Local Abbreviation Js := (Js A R E Fn).
Local Abbreviation Cells := (Cells A R E Fn).

Lemma TaskState_eqb_eq (x y : TaskState) : TaskState_eqb x y = true <-> x = y.
Proof. destruct x, y; simpl; split; congruence. Qed.

(** [isFinished] is [Completed], [Failed] or [Aborted]. *)
Lemma isFinished_iff (c : Cells) :
  isFinished c = true
  <-> state c = Completed \/ state c = Failed \/ state c = Aborted.
Proof.
  unfold isFinished, isCompleted, isFailed, isAborted.
  destruct (state c); simpl; split; intro Hc; try discriminate; auto;
    destruct Hc as [Hc | [Hc | Hc]]; discriminate.
Qed.

Lemma with_log_same (c : Cells) : with_log (log c) c = c.
Proof. destruct c; reflexivity. Qed.

Lemma with_log_twice (l1 l2 : list (Event A R E Fn)) (c : Cells) :
  with_log l2 (with_log l1 c) = with_log l2 c.
Proof. reflexivity. Qed.

Lemma forEach_callHook (kind : HookKind) (l : list Fn) (c : Cells) :
  forEach l (callHook kind) c
  = (Normal tt, with_log (log c ++ hookCalls kind (snapshot c) l) c).
Proof.
  revert c; induction l as [|fn rest IH]; intro c; simpl.
  - unfold ret. now rewrite app_nil_r, with_log_same.
  - unfold bind at 1. unfold callHook at 1, createEventContext, emit, bind, gets, modify.
    rewrite IH. simpl. rewrite with_log_twice. now rewrite <- app_assoc.
Qed.

Lemma dispatch_run (kind : HookKind) (c : Cells) :
  dispatch kind c
  = (Normal tt, with_log (log c ++ hookCalls kind (snapshot c) (hooks kind c)) c).
Proof. unfold dispatch, bind, gets. apply forEach_callHook. Qed.

Lemma consoleDebug_run (message : string) (c : Cells) :
  consoleDebug message c = (Normal tt, with_log (log c ++ debugRecord message c) c).
Proof.
  unfold consoleDebug, debugRecord, bind, gets, when.
  destruct (toBoolean (debug c)); simpl.
  - reflexivity.
  - unfold ret. now rewrite app_nil_r, with_log_same.
Qed.

Lemma consoleError_run (message : string) (c : Cells) :
  consoleError message c
  = (Normal tt, with_log (log c ++ [ConsoleError message (snapshot c)]) c).
Proof. reflexivity. Qed.

Lemma argument_store (a : option A) (c : Cells) :
  argument (store a c) = effective a c.
Proof. unfold store, effective. now destruct (toBoolean a). Qed.

Lemma state_store (a : option A) (c : Cells) :
  state (store a c) = state c.
Proof. unfold store. now destruct (toBoolean a). Qed.

Lemma In_hookCalls (kind kind' : HookKind) (fn : Fn)
    (context context' : TaskEventContext A R E) (l : list Fn) :
  In (HookCall kind' fn context') (hookCalls kind context l) ->
  kind' = kind /\ context' = context /\ In fn l.
Proof.
  unfold hookCalls. rewrite in_map_iff. intros [x [Hx Hin]].
  inversion Hx; subst. auto.
Qed.

(** Registration appends to the registry of its kind and touches nothing
    else, so a registry lists its callbacks in registration order. *)
Lemma register_appends (kind kind' : HookKind) (fn : Fn) (c : Cells) :
  hooks kind' (snd (register kind fn c))
  = if HookKind_eqb kind kind' then hooks kind' c ++ [fn] else hooks kind' c.
Proof. destruct kind, kind'; reflexivity. Qed.

End Running.

(** [js_run] evaluates a computation applied to cells as far as the guards
    already known allow. *)
Ltac js_run :=
  unfold isIdle, isExecuting, isCompleted, isFailed, isAborted, isFinished in *;
  repeat first
    [ progress cbv beta iota delta [bind gets modify ret throw when emit]
    | progress cbn [fst snd
                    with_argument with_state with_result with_error
                    with_debug with_log
                    argument state result error debug log
                    onIdleHooks onExecutingHooks onCompletedHooks
                    onFailedHooks onAbortedHooks onFinishedHooks hooks
                    TaskState_eqb snapshot negb orb andb
                    ctx_state ctx_argument ctx_result ctx_error]
    | rewrite dispatch_run
    | rewrite consoleDebug_run
    | rewrite consoleError_run ].

(* ------------------------------------------------------------------ *)
(** * The steps of the controller, one equation each

    [ts_options] configures [src/src/task.ts] and [p0_options] configures
    [src/unnamed/part_000]; the action and the cells are shared. *)

Section Steps.

Context {A R E Fn : Type} `{Truthy A} `{Truthy R} `{Truthy E}.

Variable action : option A -> Promise (option R) E.
Variable ts_options : option (@TaskTs.TaskOptions A Fn).
Variable p0_options : option (@Part000.TaskOptions A E Fn).

Local Abbreviation Cells := (Cells A R E Fn).
Local Abbreviation ts_tag := (TaskTs.tag ts_options).
Local Abbreviation p0_tag := (Part000.tag p0_options).

(** ** [execute] up to its [await] *)

Lemma ts_execute_sync_executing (a : option A) (c : Cells) :
  isExecuting c = true ->
  TaskTs.execute_sync action ts_options a c
  = (Throw (JsError AlreadyExecuting (message AlreadyExecuting ts_tag)), c).
Proof.
  intro Hx. unfold TaskTs.execute_sync. js_run. now rewrite Hx.
Qed.

Lemma p0_execute_sync_executing (a : option A) (c : Cells) :
  isExecuting c = true ->
  Part000.execute_sync action p0_options a c
  = (Throw (JsError AlreadyExecuting (message AlreadyExecuting p0_tag)), c).
Proof.
  intro Hx. unfold Part000.execute_sync. js_run. now rewrite Hx.
Qed.

Lemma ts_execute_sync_refused (a : option A) (c : Cells) :
  isExecuting c = false ->
  TaskTs.canExecute ts_options (store a c) = false ->
  TaskTs.execute_sync action ts_options a c
  = (Throw (JsError CannotExecute (message CannotExecute ts_tag)), store a c).
Proof.
  intros Hx Hc. unfold TaskTs.execute_sync, store in *. js_run. rewrite Hx.
  destruct (toBoolean a); js_run; now rewrite Hc.
Qed.

Lemma p0_execute_sync_refused (a : option A) (c : Cells) :
  isExecuting c = false ->
  Part000.canExecute p0_options (store a c) = false ->
  Part000.execute_sync action p0_options a c
  = (Throw (JsError CannotExecute (message CannotExecute p0_tag)), store a c).
Proof.
  intros Hx Hc. unfold Part000.execute_sync, store in *. js_run. rewrite Hx.
  destruct (toBoolean a); js_run; now rewrite Hc.
Qed.

Lemma ts_execute_sync_started (a : option A) (c : Cells) :
  isExecuting c = false ->
  TaskTs.canExecute ts_options (store a c) = true ->
  TaskTs.execute_sync action ts_options a c
  = (Normal (action (effective a c)), TaskTs.started ts_options a c).
Proof.
  intros Hx Hc. unfold TaskTs.execute_sync, TaskTs.started, TaskTs.callAction.
  rewrite <- argument_store. unfold store in *.
  js_run. rewrite Hx.
  destruct (toBoolean a); js_run; rewrite Hc; js_run;
    unfold executingCalls; js_run; now rewrite <- !app_assoc.
Qed.

Lemma p0_execute_sync_started (a : option A) (c : Cells) :
  isExecuting c = false ->
  Part000.canExecute p0_options (store a c) = true ->
  Part000.execute_sync action p0_options a c
  = (Normal (action (effective a c)), Part000.started p0_options a c).
Proof.
  intros Hx Hc. unfold Part000.execute_sync, Part000.started, Part000.callAction.
  rewrite <- argument_store. unfold store in *.
  js_run. rewrite Hx.
  destruct (toBoolean a) eqn:Ha; js_run; rewrite Hc; js_run;
    unfold executingCalls; js_run.
  - rewrite Ha. js_run. now rewrite <- !app_assoc.
  - destruct (toBoolean (argument c)); js_run; now rewrite <- !app_assoc.
Qed.

(** ** [execute] after its [await] *)

Lemma ts_execute_resume_fulfilled (v : option R) (c : Cells) :
  TaskTs.execute_resume ts_options (Fulfilled v) c
  = ((if toBoolean (error c) then Throw (Rejection (error c)) else Normal v),
     TaskTs.completed ts_options v c).
Proof.
  unfold TaskTs.execute_resume, TaskTs.completed, completedCalls. js_run.
  rewrite <- !app_assoc. now destruct (toBoolean (error c)).
Qed.

Lemma ts_execute_resume_rejected (e : option E) (c : Cells) :
  TaskTs.execute_resume ts_options (Rejected e) c
  = ((if toBoolean e then Throw (Rejection e) else Normal (result c)),
     TaskTs.failed ts_options e c).
Proof.
  unfold TaskTs.execute_resume, TaskTs.failed, failedCalls. js_run.
  rewrite <- !app_assoc. now destruct (toBoolean e).
Qed.

Lemma p0_execute_resume_fulfilled (v : option R) (c : Cells) :
  Part000.execute_resume p0_options (Fulfilled v) c
  = ((if toBoolean (error c) && Part000.throwOnFail p0_options
      then Throw (Rejection (error c)) else Normal (orUndefined v)),
     Part000.completed p0_options v c).
Proof.
  unfold Part000.execute_resume, Part000.completed, completedCalls,
    Part000.throwOnFail, Part000.optional.
  js_run. rewrite <- !app_assoc.
  destruct (toBoolean (error c)), p0_options as [o|]; js_run; try reflexivity.
  now destruct (toBoolean (Part000.options_throwOnFail o)).
Qed.

Lemma p0_execute_resume_rejected (e : option E) (c : Cells) :
  Part000.execute_resume p0_options (Rejected e) c
  = ((if toBoolean e && Part000.throwOnFail p0_options
      then Throw (Rejection e) else Normal (result c)),
     Part000.failed p0_options e c).
Proof.
  unfold Part000.execute_resume, Part000.failed, failedCalls,
    Part000.throwOnFail, Part000.optional.
  js_run. rewrite <- !app_assoc.
  destruct (toBoolean e), p0_options as [o|]; js_run; try reflexivity.
  now destruct (toBoolean (Part000.options_throwOnFail o)).
Qed.

(** ** [abort] *)

Lemma ts_abort_succeeds (fn : Fn) (c : Cells) :
  isExecuting c = true ->
  TaskTs.optional ts_options TaskTs.options_abort = Some fn ->
  TaskTs.abort ts_options c = (Normal tt, TaskTs.aborted fn c).
Proof.
  intros Hx Hfn. unfold TaskTs.abort, TaskTs.canAbort, TaskTs.aborted.
  js_run. rewrite Hx, Hfn. js_run. now rewrite <- app_assoc.
Qed.

Lemma ts_abort_refused (c : Cells) :
  isExecuting c = false
  \/ TaskTs.optional ts_options TaskTs.options_abort = None ->
  TaskTs.abort ts_options c
  = (Throw (JsError CannotAbort (message CannotAbort ts_tag)), c).
Proof.
  unfold TaskTs.abort, TaskTs.canAbort. js_run.
  intros [Hx | Hfn].
  - rewrite Hx. js_run. reflexivity.
  - rewrite Hfn. now destruct (TaskState_eqb (state c) Executing).
Qed.

Lemma ts_abort_normal (c c1 : Cells) :
  TaskTs.abort ts_options c = (Normal tt, c1) ->
  isExecuting c = true
  /\ exists fn, TaskTs.optional ts_options TaskTs.options_abort = Some fn
               /\ c1 = TaskTs.aborted fn c.
Proof.
  intro Hrun.
  destruct (isExecuting c) eqn:Hx.
  - destruct (TaskTs.optional ts_options TaskTs.options_abort) as [fn|] eqn:Hfn.
    + rewrite (ts_abort_succeeds fn c Hx Hfn) in Hrun.
      split; [reflexivity|]. exists fn. split; congruence.
    + rewrite ts_abort_refused in Hrun by (now right). discriminate.
  - rewrite ts_abort_refused in Hrun by (now left). discriminate.
Qed.

Lemma p0_abort_succeeds (fn : Fn) (c : Cells) :
  isExecuting c = true ->
  Part000.optional p0_options Part000.options_abort = Some fn ->
  Part000.canAbort p0_options c = true ->
  Part000.abort p0_options c = (Normal tt, Part000.aborted c).
Proof.
  intros Hx Hfn Hg. unfold Part000.abort, Part000.aborted.
  js_run. rewrite Hx, Hfn, Hg. js_run.
  unfold Part000.canAbort in Hg.
  destruct (Part000.optional p0_options Part000.options_canAbort);
    [|discriminate].
  js_run. reflexivity.
Qed.

Lemma p0_abort_refused (c : Cells) :
  isExecuting c = false
  \/ Part000.optional p0_options Part000.options_abort = None
  \/ Part000.canAbort p0_options c = false ->
  Part000.abort p0_options c
  = (Throw (JsError CannotAbort (message CannotAbort p0_tag)), c).
Proof.
  unfold Part000.abort. js_run.
  intros [Hx | [Hfn | Hg]].
  - rewrite Hx. js_run. reflexivity.
  - rewrite Hfn. js_run. now rewrite !orb_true_r.
  - rewrite Hg. js_run. now rewrite orb_true_r.
Qed.

Lemma p0_abort_normal (c c1 : Cells) :
  Part000.abort p0_options c = (Normal tt, c1) ->
  isExecuting c = true
  /\ (exists fn, Part000.optional p0_options Part000.options_abort = Some fn)
  /\ Part000.canAbort p0_options c = true
  /\ c1 = Part000.aborted c.
Proof.
  intro Hrun.
  destruct (isExecuting c) eqn:Hx;
    [|rewrite p0_abort_refused in Hrun by auto; discriminate].
  destruct (Part000.optional p0_options Part000.options_abort) as [fn|] eqn:Hfn;
    [|rewrite p0_abort_refused in Hrun by auto; discriminate].
  destruct (Part000.canAbort p0_options c) eqn:Hg;
    [|rewrite p0_abort_refused in Hrun by auto; discriminate].
  rewrite (p0_abort_succeeds fn c Hx Hfn Hg) in Hrun.
  repeat split; eauto; congruence.
Qed.

(** ** [reset] *)

Lemma ts_reset_executing (c : Cells) :
  isExecuting c = true ->
  TaskTs.reset ts_options c
  = (Throw (JsError CannotReset (message CannotReset ts_tag)), c).
Proof. intro Hx. unfold TaskTs.reset. js_run. now rewrite Hx. Qed.

Lemma ts_reset_idle (c : Cells) :
  isExecuting c = false ->
  TaskTs.reset ts_options c = (Normal tt, TaskTs.idle ts_options c).
Proof.
  intro Hx.
  unfold TaskTs.reset, TaskTs.idle, TaskTs.createdArgument, TaskTs.factoryCalls.
  js_run. rewrite Hx.
  destruct (TaskTs.optional ts_options TaskTs.options_createArgument);
    js_run; now rewrite <- ?app_assoc.
Qed.

Lemma p0_reset_executing (c : Cells) :
  isExecuting c = true ->
  Part000.reset p0_options c
  = (Throw (JsError CannotReset (message CannotReset p0_tag)), c).
Proof.
  intro Hx. unfold Part000.reset, Part000.reset_sync. js_run. now rewrite Hx.
Qed.

Lemma p0_reset_idle (v : option A) (c : Cells) :
  isExecuting c = false ->
  (forall f, Part000.optional p0_options Part000.options_createArgument = Some f ->
             f tt = Fulfilled v) ->
  Part000.reset p0_options c = (Normal tt, Part000.idle p0_options v c).
Proof.
  intros Hx Hf.
  unfold Part000.reset, Part000.reset_sync, Part000.reset_resume, Part000.idle,
    Part000.createdArgument, Part000.factoryCalls.
  js_run. rewrite Hx.
  destruct (Part000.optional p0_options Part000.options_createArgument)
    as [f|] eqn:Hopt; js_run.
  - rewrite (Hf f eq_refl). js_run. now rewrite <- ?app_assoc.
  - reflexivity.
Qed.

(** When the factory's promise rejects, [reset] stops after the write of
    [Idle]: argument, result and error keep their content and no hook runs. *)
Lemma p0_reset_factory_rejects (f : unit -> Promise (option A) E)
    (e : option E) (c : Cells) :
  isExecuting c = false ->
  Part000.optional p0_options Part000.options_createArgument = Some f ->
  f tt = Rejected e ->
  Part000.reset p0_options c
  = (Throw (Rejection e),
     with_log (log c ++ [CreateArgumentCall]) (with_state Idle c)).
Proof.
  intros Hx Hopt Hf.
  unfold Part000.reset, Part000.reset_sync, Part000.reset_resume.
  js_run. rewrite Hx, Hopt. js_run. now rewrite Hf.
Qed.

End Steps.

(* ------------------------------------------------------------------ *)
(** * Properties of the controller *)

Section Claims.

Context {A R E Fn : Type} `{Truthy A} `{Truthy R} `{Truthy E}.

Variable action : option A -> Promise (option R) E.
Variable ts_options : option (@TaskTs.TaskOptions A Fn).
Variable p0_options : option (@Part000.TaskOptions A E Fn).

Local Abbreviation Cells := (Cells A R E Fn).
Local Abbreviation ts_tag := (TaskTs.tag ts_options).
Local Abbreviation p0_tag := (Part000.tag p0_options).

(** What the callbacks of [onExecuting] are handed in [src/src/task.ts]:
    result and error are both [undefined]. *)
Lemma ts_onExecuting_snapshot (a : option A) (c : Cells) :
  isExecuting c = false ->
  TaskTs.canExecute ts_options (store a c) = true ->
  let c1 := snd (TaskTs.execute_sync action ts_options a c) in
  result c1 = None /\ error c1 = None
  /\ exists before,
      log c1
      = before
        ++ hookCalls OnExecuting
             {| ctx_state := Executing; ctx_argument := effective a c;
                ctx_result := None; ctx_error := None |}
             (onExecutingHooks c)
        ++ [ActionCall (effective a c)].
Proof.
  intros Hx Hc. rewrite ts_execute_sync_started by assumption.
  unfold TaskTs.started, executingCalls, snapshot. js_run.
  repeat split.
  eexists. rewrite app_assoc, !argument_store.
  replace (onExecutingHooks (store a c)) with (onExecutingHooks c)
    by (unfold store; now destruct (toBoolean a)).
  reflexivity.
Qed.

(** The same in [src/unnamed/part_000]: the callbacks are handed the error
    the cells held before the call. *)
Lemma p0_onExecuting_snapshot (a : option A) (c : Cells) :
  isExecuting c = false ->
  Part000.canExecute p0_options (store a c) = true ->
  let c1 := snd (Part000.execute_sync action p0_options a c) in
  result c1 = None /\ error c1 = error c
  /\ exists before,
      log c1
      = before
        ++ hookCalls OnExecuting
             {| ctx_state := Executing; ctx_argument := effective a c;
                ctx_result := None; ctx_error := error c |}
             (onExecutingHooks c)
        ++ [ActionCall (effective a c)].
Proof.
  intros Hx Hc. rewrite p0_execute_sync_started by assumption.
  unfold Part000.started, executingCalls, snapshot. js_run.
  replace (error (store a c)) with (error c)
    by (unfold store; now destruct (toBoolean a)).
  repeat split.
  eexists. rewrite app_assoc, !argument_store.
  replace (onExecutingHooks (store a c)) with (onExecutingHooks c)
    by (unfold store; now destruct (toBoolean a)).
  reflexivity.
Qed.

(** C7. While [isExecuting] is true, [execute] throws the "already
    executing" error before it writes anything: the cells (state, argument,
    result, error, registries, log) are the ones it was called with, and
    the action is not called.  Both versions. *)
Theorem C7_execute_while_executing (a : option A) (c : Cells) :
  isExecuting c = true ->
  TaskTs.execute action ts_options a c
  = (Throw (JsError AlreadyExecuting (message AlreadyExecuting ts_tag)), c)
  /\ Part000.execute action p0_options a c
     = (Throw (JsError AlreadyExecuting (message AlreadyExecuting p0_tag)), c).
Proof.
  intro Hx. split.
  - unfold TaskTs.execute, bind at 1.
    now rewrite ts_execute_sync_executing.
  - unfold Part000.execute, bind at 1.
    now rewrite p0_execute_sync_executing.
Qed.

(** C10. Outside [Executing], a truthy argument handed to [execute] is
    stored before [canExecute] is read; when the guard then answers false,
    [execute] throws the "cannot execute" error and the only cell that
    differs from before the call is [argument], which holds the new value:
    the state is the old one and the write is not undone.  Both versions. *)
Theorem C10_argument_kept_on_guard_failure (a : option A) (c : Cells) :
  isExecuting c = false ->
  toBoolean a = true ->
  TaskTs.canExecute ts_options (with_argument a c) = false ->
  Part000.canExecute p0_options (with_argument a c) = false ->
  (TaskTs.execute action ts_options a c
   = (Throw (JsError CannotExecute (message CannotExecute ts_tag)),
      with_argument a c)
   /\ Part000.execute action p0_options a c
      = (Throw (JsError CannotExecute (message CannotExecute p0_tag)),
         with_argument a c))
  /\ argument (with_argument a c) = a
  /\ state (with_argument a c) = state c.
Proof.
  intros Hx Ha Hts Hp0.
  assert (Hs : store a c = with_argument a c) by (unfold store; now rewrite Ha).
  rewrite <- Hs in Hts, Hp0.
  repeat split.
  - unfold TaskTs.execute, bind at 1.
    rewrite ts_execute_sync_refused by assumption. now rewrite Hs.
  - unfold Part000.execute, bind at 1.
    rewrite p0_execute_sync_refused by assumption. now rewrite Hs.
Qed.

(** C5 (amended). When the guards pass, [execute] works with the
    effective argument: the supplied value when it is truthy, the
    stored one when the argument is omitted or falsy.  That value is what
    the action is called with, it is the stored argument at the [await],
    and it is still stored after the settlement.  Both versions. *)
Theorem C5_argument_precedence (a : option A) (c : Cells) :
  isExecuting c = false ->
  TaskTs.canExecute ts_options (store a c) = true ->
  Part000.canExecute p0_options (store a c) = true ->
  effective a c = (if toBoolean a then a else argument c)
  /\ (let c1 := TaskTs.started ts_options a c in
      TaskTs.execute_sync action ts_options a c
      = (Normal (action (effective a c)), c1)
      /\ argument c1 = effective a c
      /\ (exists before, log c1 = before ++ [ActionCall (effective a c)])
      /\ forall p,
          argument (snd (TaskTs.execute_resume ts_options p c1))
          = effective a c)
  /\ (let c1 := Part000.started p0_options a c in
      Part000.execute_sync action p0_options a c
      = (Normal (action (effective a c)), c1)
      /\ argument c1 = effective a c
      /\ (exists before, log c1 = before ++ [ActionCall (effective a c)])
      /\ forall p,
          argument (snd (Part000.execute_resume p0_options p c1))
          = effective a c).
Proof.
  intros Hx Hts Hp0. split; [reflexivity|]. split.
  - cbv zeta. split; [now apply ts_execute_sync_started|].
    split; [unfold TaskTs.started; js_run; apply argument_store|].
    split.
    + unfold TaskTs.started, executingCalls. js_run.
      eexists. rewrite !app_assoc, argument_store. reflexivity.
    + intros [v|e].
      * rewrite ts_execute_resume_fulfilled. unfold TaskTs.completed, TaskTs.started.
        js_run. apply argument_store.
      * rewrite ts_execute_resume_rejected. unfold TaskTs.failed, TaskTs.started.
        js_run. apply argument_store.
  - cbv zeta. split; [now apply p0_execute_sync_started|].
    split; [unfold Part000.started; js_run; apply argument_store|].
    split.
    + unfold Part000.started, executingCalls. js_run.
      eexists. rewrite !app_assoc, argument_store. reflexivity.
    + intros [v|e].
      * rewrite p0_execute_resume_fulfilled.
        unfold Part000.completed, Part000.started.
        js_run. apply argument_store.
      * rewrite p0_execute_resume_rejected.
        unfold Part000.failed, Part000.started.
        js_run. apply argument_store.
Qed.

(** C2 (amended). A run of [execute] whose action rejects with [e] ends in
    [Failed] with the error slot equal to [e] and the result slot empty.
    In [src/unnamed/part_000] it re-raises [e] exactly when [throwOnFail]
    is set and [e] is truthy, and otherwise returns without raising; with
    no options or no [throwOnFail] it never raises.  In [src/src/task.ts],
    which has no such option, it re-raises [e] exactly when [e] is truthy. *)
Theorem C2_rejection (a : option A) (e : option E) (c : Cells) :
  isExecuting c = false ->
  TaskTs.canExecute ts_options (store a c) = true ->
  Part000.canExecute p0_options (store a c) = true ->
  action (effective a c) = Rejected e ->
  (let out := Part000.execute action p0_options a c in
   fst out = (if toBoolean e && Part000.throwOnFail p0_options
              then Throw (Rejection e) else Normal None)
   /\ state (snd out) = Failed
   /\ error (snd out) = e
   /\ result (snd out) = None)
  /\ (let out := TaskTs.execute action ts_options a c in
      fst out = (if toBoolean e then Throw (Rejection e) else Normal None)
      /\ state (snd out) = Failed
      /\ error (snd out) = e
      /\ result (snd out) = None).
Proof.
  intros Hx Hts Hp0 Hrej. split; cbv zeta.
  - unfold Part000.execute, bind at 1 2 3 4.
    rewrite p0_execute_sync_started, Hrej, p0_execute_resume_rejected
      by assumption.
    unfold Part000.failed, Part000.started. js_run. repeat split.
  - unfold TaskTs.execute, bind at 1 2 3 4.
    rewrite ts_execute_sync_started, Hrej, ts_execute_resume_rejected
      by assumption.
    unfold TaskTs.failed, TaskTs.started. js_run. repeat split.
Qed.

(** C9 (amended). A run of [execute] whose action fulfils with a value [v]
    that is absent or falsy ends in [Completed].  [src/unnamed/part_000]
    stores [undefined] in the result slot, so a falsy resolution cannot be
    told from an absent one.  [src/src/task.ts] stores [v] itself: the slot
    is [undefined] only when the resolution is. *)
Theorem C9_falsy_resolution (a : option A) (v : option R) (c : Cells) :
  isExecuting c = false ->
  TaskTs.canExecute ts_options (store a c) = true ->
  Part000.canExecute p0_options (store a c) = true ->
  action (effective a c) = Fulfilled v ->
  toBoolean v = false ->
  (let c2 := snd (Part000.execute action p0_options a c) in
   state c2 = Completed /\ result c2 = None)
  /\ (let c2 := snd (TaskTs.execute action ts_options a c) in
      state c2 = Completed /\ result c2 = v).
Proof.
  intros Hx Hts Hp0 Hful Hv. split; cbv zeta.
  - unfold Part000.execute, bind at 1 2.
    rewrite p0_execute_sync_started, Hful, p0_execute_resume_fulfilled
      by assumption.
    unfold Part000.completed, orUndefined. js_run. now rewrite Hv.
  - unfold TaskTs.execute, bind at 1 2.
    rewrite ts_execute_sync_started, Hful, ts_execute_resume_fulfilled
      by assumption.
    unfold TaskTs.completed. js_run. now split.
Qed.

(** C6. [abort] returns normally, leaving the state [Aborted], exactly when
    the state is [Executing], an abort capability is configured and the
    [canAbort] guard is true of the stored argument; in every other case it
    throws the "cannot abort" error and the cells are untouched.  In
    [src/unnamed/part_000] the guard is [options.canAbort]; in
    [src/src/task.ts] [canAbort] is the presence of the capability. *)
Theorem C6_abort_guard (c : Cells) :
  (let able :=
     isExecuting c = true
     /\ (exists fn, Part000.optional p0_options Part000.options_abort = Some fn)
     /\ (exists g, Part000.optional p0_options Part000.options_canAbort = Some g
                   /\ g (argument c) = true) in
   (able <-> exists c1, Part000.abort p0_options c = (Normal tt, c1)
                        /\ state c1 = Aborted)
   /\ (~ able ->
       Part000.abort p0_options c
       = (Throw (JsError CannotAbort (message CannotAbort p0_tag)), c)))
  /\ (let able :=
        isExecuting c = true
        /\ (exists fn, TaskTs.optional ts_options TaskTs.options_abort = Some fn)
        /\ TaskTs.canAbort ts_options c = true in
      (able <-> exists c1, TaskTs.abort ts_options c = (Normal tt, c1)
                           /\ state c1 = Aborted)
      /\ (~ able ->
          TaskTs.abort ts_options c
          = (Throw (JsError CannotAbort (message CannotAbort ts_tag)), c))).
Proof.
  split; cbv zeta.
  - assert (Hguard :
      Part000.canAbort p0_options c = true <->
      exists g, Part000.optional p0_options Part000.options_canAbort = Some g
                /\ g (argument c) = true).
    { unfold Part000.canAbort.
      destruct (Part000.optional p0_options Part000.options_canAbort) as [g|].
      - split; [intro Hg; now exists g | intros [g' [Heq Hg]]; congruence].
      - split; [discriminate | intros [g' [Heq _]]; discriminate]. }
    split; [split|].
    + intros [Hx [[fn Hfn] Hg]]. apply Hguard in Hg.
      exists (Part000.aborted c). split; [now apply (p0_abort_succeeds _ fn)|].
      reflexivity.
    + intros [c1 [Hrun _]]. apply p0_abort_normal in Hrun.
      destruct Hrun as [Hx [Hfn [Hg _]]]. apply Hguard in Hg. auto.
    + intro Hno. apply p0_abort_refused.
      destruct (isExecuting c) eqn:Hx; [|now left]. right.
      destruct (Part000.optional p0_options Part000.options_abort) as [fn|] eqn:Hfn;
        [|now left]. right.
      destruct (Part000.canAbort p0_options c) eqn:Hg; [|reflexivity].
      exfalso. apply Hno. split; [reflexivity|]. split; [eauto|].
      now apply Hguard.
  - split; [split|].
    + intros [Hx [[fn Hfn] _]].
      exists (TaskTs.aborted fn c). split; [now apply ts_abort_succeeds|].
      reflexivity.
    + intros [c1 [Hrun _]]. apply ts_abort_normal in Hrun.
      destruct Hrun as [Hx [fn [Hfn _]]].
      repeat split; eauto. unfold TaskTs.canAbort. now rewrite Hfn.
    + intro Hno. apply ts_abort_refused.
      destruct (isExecuting c) eqn:Hx; [|now left]. right.
      destruct (TaskTs.optional ts_options TaskTs.options_abort) as [fn|] eqn:Hfn;
        [|reflexivity].
      exfalso. apply Hno. repeat split; eauto.
      unfold TaskTs.canAbort. now rewrite Hfn.
Qed.

(** C3 (amended). A successful [abort] writes [Aborted] to the state and
    nothing to the result, error and argument slots, and calls every
    callback of [onAborted] once, in registration order, with the cells as
    they are after that write.  It calls no callback of [onFinished]: those
    run when the action settles (see C1).  [src/src/task.ts] first calls the
    abort capability with the stored argument; [src/unnamed/part_000] does
    not call it. *)
Theorem C3_abort_dispatch (c c_ts c_p0 : Cells) :
  TaskTs.abort ts_options c = (Normal tt, c_ts) ->
  Part000.abort p0_options c = (Normal tt, c_p0) ->
  let context :=
    {| ctx_state := Aborted; ctx_argument := argument c;
       ctx_result := result c; ctx_error := error c |} in
  (state c_p0 = Aborted /\ result c_p0 = result c /\ error c_p0 = error c
   /\ argument c_p0 = argument c
   /\ log c_p0 = log c ++ hookCalls OnAborted context (onAbortedHooks c))
  /\ (state c_ts = Aborted /\ result c_ts = result c /\ error c_ts = error c
      /\ argument c_ts = argument c
      /\ exists fn,
          TaskTs.optional ts_options TaskTs.options_abort = Some fn
          /\ log c_ts = log c ++ [AbortCall fn (argument c)]
                              ++ hookCalls OnAborted context (onAbortedHooks c))
  /\ forall fn context',
      (In (HookCall OnFinished fn context') (log c_p0)
       \/ In (HookCall OnFinished fn context') (log c_ts)) ->
      In (HookCall OnFinished fn context') (log c).
Proof.
  intros Hts Hp0 context.
  apply ts_abort_normal in Hts. destruct Hts as [_ [fn [Hfn ->]]].
  apply p0_abort_normal in Hp0. destruct Hp0 as [_ [_ [_ ->]]].
  split; [|split].
  - unfold Part000.aborted. js_run. repeat split.
  - unfold TaskTs.aborted. js_run. repeat split. now exists fn.
  - intros fn' context'. unfold Part000.aborted, TaskTs.aborted. js_run.
    rewrite !in_app_iff. simpl.
    intros [[Hin | Hin] | [Hin | [[Hin | []] | Hin]]];
      try assumption; try discriminate;
      apply In_hookCalls in Hin; destruct Hin as [Hk _]; discriminate.
Qed.

(** C1 (amended). After a successful [abort] the state is [Aborted], and it
    stays so only until the action settles: the continuation of [execute]
    does not look at the state.  A fulfilment writes the result and
    [Completed] and runs the callbacks of [onCompleted], then those of
    [onFinished]; a rejection writes the error and [Failed] and runs the
    callbacks of [onFailed], then those of [onFinished].  Both versions
    ([src/unnamed/part_000] stores the fulfilment value through
    [|| undefined]). *)
Theorem C1_settlement_after_abort (c c_ts c_p0 : Cells) :
  TaskTs.abort ts_options c = (Normal tt, c_ts) ->
  Part000.abort p0_options c = (Normal tt, c_p0) ->
  (state c_ts = Aborted /\ state c_p0 = Aborted)
  /\ (forall v : option R,
        (let c2 := snd (Part000.execute_resume p0_options (Fulfilled v) c_p0) in
         state c2 = Completed /\ result c2 = orUndefined v
         /\ error c2 = error c
         /\ log c2
            = log c_p0
              ++ completedCalls (tagOrAnonymous p0_tag)
                   (with_state Completed (with_result (orUndefined v) c_p0)))
        /\ (let c2 := snd (TaskTs.execute_resume ts_options (Fulfilled v) c_ts) in
            state c2 = Completed /\ result c2 = v
            /\ error c2 = error c
            /\ log c2
               = log c_ts
                 ++ completedCalls (tagOrAnonymous ts_tag)
                      (with_state Completed (with_result v c_ts))))
  /\ (forall e : option E,
        (let c2 := snd (Part000.execute_resume p0_options (Rejected e) c_p0) in
         state c2 = Failed /\ error c2 = e
         /\ result c2 = result c
         /\ log c2
            = log c_p0
              ++ failedCalls (tagOrAnonymous p0_tag)
                   (with_state Failed (with_error e c_p0)))
        /\ (let c2 := snd (TaskTs.execute_resume ts_options (Rejected e) c_ts) in
            state c2 = Failed /\ error c2 = e
            /\ result c2 = result c
            /\ log c2
               = log c_ts
                 ++ failedCalls (tagOrAnonymous ts_tag)
                      (with_state Failed (with_error e c_ts)))).
Proof.
  intros Hts Hp0.
  apply ts_abort_normal in Hts. destruct Hts as [_ [fn [Hfn ->]]].
  apply p0_abort_normal in Hp0. destruct Hp0 as [_ [_ [_ ->]]].
  split; [split; reflexivity|]. split.
  - intro v. cbv zeta.
    rewrite p0_execute_resume_fulfilled, ts_execute_resume_fulfilled.
    unfold Part000.completed, TaskTs.completed. js_run. repeat split.
  - intro e. cbv zeta.
    rewrite p0_execute_resume_rejected, ts_execute_resume_rejected.
    unfold Part000.failed, TaskTs.failed. js_run. repeat split.
Qed.

(** C8 (amended). Outside [Executing], [reset] writes [Idle] to the state
    and then asks the argument factory, if one is configured.  When there
    is none, or when it yields an output, [reset] writes that output (or
    [undefined] when none is configured) to the argument, [undefined] to
    result and error, and then calls every callback of [onIdle] once, in
    registration order, with the cells as they are after those writes.  In
    [src/src/task.ts] the factory returns its output directly.  In
    [src/unnamed/part_000] it returns a promise: when that promise fulfils
    with [v] the reset is completed with [v]; when it rejects with [e],
    [reset] raises [e] having written [Idle] only, so argument, result and
    error keep their content and no callback of [onIdle] is called. *)
Theorem C8_reset_by_factory_outcome (c : Cells) :
  isExecuting c = false ->
  let completes (out : Completion E unit * Cells) (arg : option A)
        (calls : list (Event A R E Fn)) : Prop :=
    fst out = Normal tt
    /\ state (snd out) = Idle /\ result (snd out) = None
    /\ error (snd out) = None /\ argument (snd out) = arg
    /\ log (snd out)
       = log c ++ calls
               ++ hookCalls OnIdle
                    {| ctx_state := Idle; ctx_argument := arg;
                       ctx_result := None; ctx_error := None |}
                    (onIdleHooks c) in
  completes (TaskTs.reset ts_options c) (TaskTs.createdArgument ts_options)
    (TaskTs.factoryCalls ts_options)
  /\ (Part000.optional p0_options Part000.options_createArgument = None ->
      completes (Part000.reset p0_options c) None [])
  /\ (forall f v,
        Part000.optional p0_options Part000.options_createArgument = Some f ->
        f tt = Fulfilled v ->
        completes (Part000.reset p0_options c) v [CreateArgumentCall])
  /\ (forall f e,
        Part000.optional p0_options Part000.options_createArgument = Some f ->
        f tt = Rejected e ->
        let out := Part000.reset p0_options c in
        fst out = Throw (Rejection e)
        /\ state (snd out) = Idle
        /\ argument (snd out) = argument c
        /\ result (snd out) = result c
        /\ error (snd out) = error c
        /\ log (snd out) = log c ++ [CreateArgumentCall]).
Proof.
  intros Hx completes. subst completes. cbv beta.
  split; [|split; [|split]].
  - rewrite ts_reset_idle by assumption.
    unfold TaskTs.idle. js_run. repeat split.
  - intro Hnone.
    rewrite (p0_reset_idle _ None) by (assumption || (intros f Hf; congruence)).
    unfold Part000.idle, Part000.createdArgument, Part000.factoryCalls.
    rewrite Hnone. js_run. repeat split.
  - intros f v Hsome Hful.
    rewrite (p0_reset_idle _ v)
      by (assumption || (intros f' Hf'; congruence)).
    unfold Part000.idle, Part000.createdArgument, Part000.factoryCalls.
    rewrite Hsome. js_run. repeat split.
  - intros f e Hsome Hrej. cbv zeta.
    rewrite (p0_reset_factory_rejects _ f e c) by assumption.
    js_run. repeat split.
Qed.

End Claims.

(* ------------------------------------------------------------------ *)
(** * The properties on the concrete controllers *)

Section OnExamples.

Import Examples.
Local Open Scope Z_scope.

(** C1, as stated, fails: [abort] succeeds during the [await] and the state
    is [Aborted]; the action then fulfils with [2], and the state becomes
    [Completed], the result [2], and the callbacks of [onCompleted] and
    [onFinished] run.  Both versions. *)
Lemma C1_counterexample :
  let settled :=
    {| ctx_state := Completed; ctx_argument := Some 1;
       ctx_result := Some 2; ctx_error := None |} in
  (fst p0_inFlight = Normal (checked (Some 1))
   /\ fst p0_afterAbort = Normal tt
   /\ state (snd p0_afterAbort) = Aborted
   /\ result (snd p0_afterAbort) = None
   /\ state (snd p0_afterSettlement) = Completed
   /\ result (snd p0_afterSettlement) = Some 2
   /\ log (snd p0_afterSettlement)
      = log (snd p0_afterAbort)
        ++ [HookCall OnCompleted "completed" settled;
            HookCall OnFinished "finished" settled])
  /\ (fst ts_inFlight = Normal (checked (Some 1))
      /\ fst ts_afterAbort = Normal tt
      /\ state (snd ts_afterAbort) = Aborted
      /\ result (snd ts_afterAbort) = None
      /\ state (snd ts_afterSettlement) = Completed
      /\ result (snd ts_afterSettlement) = Some 2
      /\ log (snd ts_afterSettlement)
         = log (snd ts_afterAbort)
           ++ [HookCall OnCompleted "completed" settled;
               HookCall OnFinished "finished" settled]).
Proof. vm_compute. repeat split. Qed.

(** C3, as stated, fails: a callback is registered for [onFinished], the
    abort succeeds, and the only callback called is the one of
    [onAborted].  Both versions. *)
Lemma C3_counterexample :
  let context :=
    {| ctx_state := Aborted; ctx_argument := Some 1;
       ctx_result := None; ctx_error := None |} in
  onFinishedHooks (snd p0_inFlight) = ["finished"]
  /\ fst p0_afterAbort = Normal tt
  /\ log (snd p0_afterAbort)
     = log (snd p0_inFlight) ++ [HookCall OnAborted "aborted" context]
  /\ onFinishedHooks (snd ts_inFlight) = ["finished"]
  /\ fst ts_afterAbort = Normal tt
  /\ log (snd ts_afterAbort)
     = log (snd ts_inFlight)
       ++ [AbortCall "cancel" (Some 1); HookCall OnAborted "aborted" context].
Proof. vm_compute. repeat split. Qed.

(** C5, as stated, fails for the falsy value [0]: with [5] stored,
    [execute(0)] calls the action with [5], fulfils with [10], and leaves
    [5] stored.  Both versions. *)
Lemma C5_counterexample :
  let p0 := Part000.execute checked p0_none (Some 0) (fresh (Some 5)) in
  let ts := TaskTs.execute checked ts_none (Some 0) (fresh (Some 5)) in
  (fst p0 = Normal (Some 10)
   /\ argument (snd p0) = Some 5
   /\ log (snd p0) = [ActionCall (Some 5)])
  /\ (fst ts = Normal (Some 10)
      /\ argument (snd ts) = Some 5
      /\ log (snd ts) = [ActionCall (Some 5)]).
Proof. vm_compute. repeat split. Qed.

(** C9, as stated, fails in [src/src/task.ts]: the action fulfils with the
    falsy value [0] and the result slot holds [0], not [undefined]. *)
Lemma C9_counterexample :
  let ts := TaskTs.execute checked ts_none None (fresh (Some 0)) in
  checked (Some 0) = Fulfilled (Some 0)
  /\ toBoolean (Some 0) = false
  /\ fst ts = Normal (Some 0)
  /\ state (snd ts) = Completed
  /\ result (snd ts) = Some 0
  /\ result (snd ts) <> None.
Proof. vm_compute. repeat split. discriminate. Qed.

(** C2, as stated, fails.  In [src/unnamed/part_000] with
    [throwOnFail: true], an action that rejects with [undefined] leaves the
    controller [Failed] and [execute] returns without raising.  In
    [src/src/task.ts] with no options, an action that rejects with ["boom"]
    makes [execute] raise ["boom"]. *)
Lemma C2_counterexample :
  let p0 := Part000.execute checked p0_throwing None (fresh None) in
  let ts := TaskTs.execute checked ts_none (Some (-1)) (fresh None) in
  (Part000.throwOnFail p0_throwing = true
   /\ checked None = Rejected None
   /\ fst p0 = Normal None
   /\ state (snd p0) = Failed
   /\ error (snd p0) = None)
  /\ (checked (Some (-1)) = Rejected (Some "boom")
      /\ fst ts = Throw (Rejection (Some "boom"))
      /\ state (snd ts) = Failed
      /\ error (snd ts) = Some "boom").
Proof. vm_compute. repeat split. Qed.

(** C8, as stated, fails in [src/unnamed/part_000] when the promise of the
    argument factory rejects: from [Failed] with the error ["boom"], [reset]
    raises ["offline"]; the state is [Idle], but argument, result and error
    are not touched, and the callback registered for [onIdle] is not
    called. *)
Lemma C8_counterexample :
  let out := Part000.reset MoreExamples.p0_failingFactory finished in
  isExecuting finished = false
  /\ onIdleHooks finished = ["idle"]
  /\ fst out = Throw (Rejection (Some "offline"))
  /\ state (snd out) = Idle
  /\ argument (snd out) = Some 1
  /\ error (snd out) = Some "boom"
  /\ log (snd out) = [CreateArgumentCall].
Proof. vm_compute. repeat split. Qed.

(** C4 at the failing input.  After [execute(-1)] has failed with ["boom"],
    [execute(3)] in [src/unnamed/part_000] enters [Executing] with the
    error slot still holding ["boom"], and that is what the callback of
    [onExecuting] is handed.  On the same input [src/src/task.ts] has
    cleared the slot. *)
Theorem C4_stale_error_on_execute :
  (fst p0_retry = Normal (checked (Some 3))
   /\ state (snd p0_retry) = Executing
   /\ result (snd p0_retry) = None
   /\ error (snd p0_retry) = Some "boom"
   /\ In (HookCall OnExecuting "executing"
            {| ctx_state := Executing; ctx_argument := Some 3;
               ctx_result := None; ctx_error := Some "boom" |})
         (log (snd p0_retry)))
  /\ (fst ts_retry = Normal (checked (Some 3))
      /\ state (snd ts_retry) = Executing
      /\ result (snd ts_retry) = None
      /\ error (snd ts_retry) = None
      /\ In (HookCall OnExecuting "executing"
               {| ctx_state := Executing; ctx_argument := Some 3;
                  ctx_result := None; ctx_error := None |})
            (log (snd ts_retry))).
Proof. vm_compute. repeat split; auto 10. Qed.

(** What the stale error does next in [src/unnamed/part_000]: with
    [throwOnFail: true], the run of [execute(3)] that follows a failed
    [execute(-1)] completes with result [6] and still raises ["boom"]. *)
Example p0_stale_error_rethrown :
  let failed := snd (Part000.execute checked p0_throwing (Some (-1)) listening) in
  let out := Part000.execute checked p0_throwing (Some 3) failed in
  fst out = Throw (Rejection (Some "boom"))
  /\ state (snd out) = Completed
  /\ result (snd out) = Some 6
  /\ error (snd out) = Some "boom".
Proof. vm_compute. repeat split. Qed.

(** ** The hypotheses of the theorems above can be met *)

Lemma C7_witness :
  isExecuting executing = true
  /\ TaskTs.execute checked ts_full (Some 2) executing
     = (Throw (JsError AlreadyExecuting "Task Sum is already executing."),
        executing)
  /\ Part000.execute checked p0_full (Some 2) executing
     = (Throw (JsError AlreadyExecuting "Task Sum is already executing."),
        executing).
Proof.
  split; [reflexivity|].
  apply (C7_execute_while_executing checked ts_full p0_full (Some 2) executing).
  reflexivity.
Defined.

Lemma C10_witness :
  positive (Some (-1)) = false
  /\ TaskTs.execute checked ts_full (Some (-1)) listening
     = (Throw (JsError CannotExecute "Cannot execute task Sum"),
        with_argument (Some (-1)) listening)
  /\ Part000.execute checked p0_full (Some (-1)) listening
     = (Throw (JsError CannotExecute "Cannot execute task Sum"),
        with_argument (Some (-1)) listening).
Proof.
  split; [reflexivity|].
  apply (C10_argument_kept_on_guard_failure checked ts_full p0_full
           (Some (-1)) listening); reflexivity.
Defined.

Lemma C5_witness :
  effective (Some 7) listening = Some 7
  /\ argument (Part000.started p0_full (Some 7) listening) = Some 7
  /\ effective None listening = Some 1
  /\ argument (Part000.started p0_full None listening) = Some 1.
Proof.
  pose proof (C5_argument_precedence checked ts_full p0_full (Some 7) listening
                eq_refl eq_refl eq_refl) as [_ [_ [_ [Hsupplied _]]]].
  pose proof (C5_argument_precedence checked ts_full p0_full None listening
                eq_refl eq_refl eq_refl) as [_ [_ [_ [Homitted _]]]].
  repeat split; assumption.
Defined.

Lemma C2_witness :
  fst (Part000.execute checked p0_throwing (Some (-1)) listening)
  = Throw (Rejection (Some "boom"))
  /\ state (snd (Part000.execute checked p0_throwing (Some (-1)) listening))
     = Failed.
Proof.
  pose proof (C2_rejection checked ts_none p0_throwing (Some (-1)) (Some "boom")
                listening eq_refl eq_refl eq_refl eq_refl)
    as [[Hout [Hstate _]] _].
  split; assumption.
Defined.

Lemma C9_witness :
  result (snd (Part000.execute checked p0_none (Some 0) (fresh None))) = None
  /\ result (snd (TaskTs.execute checked ts_none None (fresh (Some 0)))) = Some 0.
Proof.
  pose proof (C9_falsy_resolution checked ts_none p0_none None (Some 0)
                (fresh (Some 0)) eq_refl eq_refl eq_refl eq_refl eq_refl)
    as [[_ Hp0] [_ Hts]].
  split; assumption.
Defined.

Lemma C3_witness :
  state (snd (Part000.abort p0_full executing)) = Aborted
  /\ state (snd (TaskTs.abort ts_full executing)) = Aborted.
Proof.
  pose proof (C3_abort_dispatch ts_full p0_full executing
                (snd (TaskTs.abort ts_full executing))
                (snd (Part000.abort p0_full executing))
                eq_refl eq_refl)
    as [[Hp0 _] [[Hts _] _]].
  split; assumption.
Defined.

Lemma C1_witness :
  state (snd (Part000.execute_resume p0_full (Fulfilled (Some 2))
                (snd (Part000.abort p0_full executing)))) = Completed
  /\ state (snd (TaskTs.execute_resume ts_full (Rejected (Some "boom"))
                   (snd (TaskTs.abort ts_full executing)))) = Failed.
Proof.
  pose proof (C1_settlement_after_abort ts_full p0_full executing
                (snd (TaskTs.abort ts_full executing))
                (snd (Part000.abort p0_full executing))
                eq_refl eq_refl)
    as [_ [Hfulfilled Hrejected]].
  destruct (Hfulfilled (Some 2)) as [[Hp0 _] _].
  destruct (Hrejected (Some "boom")) as [_ [Hts _]].
  split; assumption.
Defined.

Lemma C8_witness :
  isExecuting finished = false
  /\ (fst (Part000.reset p0_full finished) = Normal tt
      /\ state (snd (Part000.reset p0_full finished)) = Idle
      /\ error (snd (Part000.reset p0_full finished)) = None
      /\ argument (snd (Part000.reset p0_full finished)) = Some 1)
  /\ state (snd (TaskTs.reset ts_full finished)) = Idle
  /\ (fst (Part000.reset MoreExamples.p0_failingFactory finished)
      = Throw (Rejection (Some "offline"))
      /\ error (snd (Part000.reset MoreExamples.p0_failingFactory finished))
         = Some "boom").
Proof.
  pose proof (C8_reset_by_factory_outcome ts_full p0_full finished eq_refl)
    as [[_ [Hts _]] [_ [Hfulfils _]]].
  pose proof (C8_reset_by_factory_outcome ts_full MoreExamples.p0_failingFactory
                finished eq_refl)
    as [_ [_ [_ Hrejects]]].
  destruct (Hfulfils (fun _ => Fulfilled (Some 1)) (Some 1) eq_refl eq_refl)
    as [Hout [Hstate [_ [Herr [Harg _]]]]].
  destruct (Hrejects (fun _ => Rejected (Some "offline")) (Some "offline")
              eq_refl eq_refl)
    as [Hraise [_ [_ [_ [Hkept _]]]]].
  repeat split; assumption.
Defined.

End OnExamples.

(* ------------------------------------------------------------------ *)
(** * Further properties of the controller *)

Section LogFacts.

Context {A R E Fn : Type}.

Lemma hookCallsIn_app (l1 l2 : list (Event A R E Fn)) :
  hookCallsIn (l1 ++ l2) = hookCallsIn l1 ++ hookCallsIn l2.
Proof. apply filter_app. Qed.

Lemma consoleIn_app (l1 l2 : list (Event A R E Fn)) :
  consoleIn (l1 ++ l2) = consoleIn l1 ++ consoleIn l2.
Proof. apply filter_app. Qed.

Lemma hookCallsIn_hookCalls (kind : HookKind)
    (context : TaskEventContext A R E) (l : list Fn) :
  hookCallsIn (hookCalls kind context l) = hookCalls kind context l.
Proof.
  unfold hookCallsIn, hookCalls.
  induction l as [|fn rest IH]; simpl; [reflexivity | now rewrite IH].
Qed.

Lemma consoleIn_hookCalls (kind : HookKind)
    (context : TaskEventContext A R E) (l : list Fn) :
  consoleIn (hookCalls kind context l) = [].
Proof.
  unfold consoleIn, hookCalls.
  induction l as [|fn rest IH]; simpl; [reflexivity | exact IH].
Qed.

Lemma hookCallsIn_debugRecord (message : string) (c : Cells A R E Fn) :
  hookCallsIn (debugRecord message c) = [].
Proof. unfold debugRecord. now destruct (toBoolean (debug c)). Qed.

Lemma consoleIn_debugRecord (message : string) (c : Cells A R E Fn) :
  consoleIn (debugRecord message c) = debugRecord message c.
Proof. unfold debugRecord. now destruct (toBoolean (debug c)). Qed.

Lemma sameRegistries_refl (c : Cells A R E Fn) : sameRegistries c c.
Proof. split; reflexivity. Qed.

End LogFacts.

Section Further.

Context {A R E Fn : Type} `{Truthy A} `{Truthy R} `{Truthy E}.

Variable action : option A -> Promise (option R) E.
Variable ts_options : option (@TaskTs.TaskOptions A Fn).
Variable p0_options : option (@Part000.TaskOptions A E Fn).

Local Abbreviation Cells := (Cells A R E Fn).
Local Abbreviation ts_tag := (TaskTs.tag ts_options).
Local Abbreviation p0_tag := (Part000.tag p0_options).

(** ** Runs of [execute] in closed form *)

Lemma ts_execute_fulfilled (a : option A) (v : option R) (c : Cells) :
  isExecuting c = false ->
  TaskTs.canExecute ts_options (store a c) = true ->
  action (effective a c) = Fulfilled v ->
  TaskTs.execute action ts_options a c
  = (Normal v, TaskTs.completed ts_options v (TaskTs.started ts_options a c)).
Proof.
  intros Hx Hc Hful. unfold TaskTs.execute, bind at 1.
  rewrite ts_execute_sync_started, Hful, ts_execute_resume_fulfilled
    by assumption.
  reflexivity.
Qed.

Lemma ts_execute_rejected (a : option A) (e : option E) (c : Cells) :
  isExecuting c = false ->
  TaskTs.canExecute ts_options (store a c) = true ->
  action (effective a c) = Rejected e ->
  TaskTs.execute action ts_options a c
  = ((if toBoolean e then Throw (Rejection e) else Normal None),
     TaskTs.failed ts_options e (TaskTs.started ts_options a c)).
Proof.
  intros Hx Hc Hrej. unfold TaskTs.execute, bind at 1.
  rewrite ts_execute_sync_started, Hrej, ts_execute_resume_rejected
    by assumption.
  reflexivity.
Qed.

Lemma error_store (a : option A) (c : Cells) : error (store a c) = error c.
Proof. unfold store. now destruct (toBoolean a). Qed.

Lemma result_store (a : option A) (c : Cells) : result (store a c) = result c.
Proof. unfold store. now destruct (toBoolean a). Qed.

Lemma log_store (a : option A) (c : Cells) : log (store a c) = log c.
Proof. unfold store. now destruct (toBoolean a). Qed.

Lemma debug_store (a : option A) (c : Cells) : debug (store a c) = debug c.
Proof. unfold store. now destruct (toBoolean a). Qed.

Lemma hooks_store (kind : HookKind) (a : option A) (c : Cells) :
  hooks kind (store a c) = hooks kind c.
Proof. unfold store. now destruct (toBoolean a), kind. Qed.

Lemma p0_execute_fulfilled (a : option A) (v : option R) (c : Cells) :
  isExecuting c = false ->
  Part000.canExecute p0_options (store a c) = true ->
  action (effective a c) = Fulfilled v ->
  Part000.execute action p0_options a c
  = ((if toBoolean (error c) && Part000.throwOnFail p0_options
      then Throw (Rejection (error c)) else Normal (orUndefined v)),
     Part000.completed p0_options v (Part000.started p0_options a c)).
Proof.
  intros Hx Hc Hful. unfold Part000.execute, bind at 1.
  rewrite p0_execute_sync_started, Hful, p0_execute_resume_fulfilled
    by assumption.
  assert (Herr : error (Part000.started p0_options a c) = error c)
    by (unfold Part000.started; js_run; apply error_store).
  now rewrite Herr.
Qed.

Lemma p0_execute_rejected (a : option A) (e : option E) (c : Cells) :
  isExecuting c = false ->
  Part000.canExecute p0_options (store a c) = true ->
  action (effective a c) = Rejected e ->
  Part000.execute action p0_options a c
  = ((if toBoolean e && Part000.throwOnFail p0_options
      then Throw (Rejection e) else Normal None),
     Part000.failed p0_options e (Part000.started p0_options a c)).
Proof.
  intros Hx Hc Hrej. unfold Part000.execute, bind at 1.
  rewrite p0_execute_sync_started, Hrej, p0_execute_resume_rejected
    by assumption.
  reflexivity.
Qed.

(** X1. While [isExecuting] is true, [reset] throws the "cannot reset"
    error before it writes anything: the cells are the ones it was called
    with and no callback of [onIdle] runs.  Both versions. *)
Theorem X1_reset_while_executing (c : Cells) :
  isExecuting c = true ->
  TaskTs.reset ts_options c
  = (Throw (JsError CannotReset (message CannotReset ts_tag)), c)
  /\ Part000.reset p0_options c
     = (Throw (JsError CannotReset (message CannotReset p0_tag)), c).
Proof.
  intro Hx. split.
  - now apply ts_reset_executing.
  - now apply p0_reset_executing.
Qed.

(** X2. Outside [Executing], when [canExecute] answers false for the
    effective argument, [execute] throws the "cannot execute" error having
    called neither the action nor any callback: state, result, error,
    registries and log are untouched, and when the argument was omitted or
    falsy the cells are exactly the ones it was called with.  Both
    versions. *)
Theorem X2_execute_refused (a : option A) (c : Cells) :
  isExecuting c = false ->
  TaskTs.canExecute ts_options (store a c) = false ->
  Part000.canExecute p0_options (store a c) = false ->
  (TaskTs.execute action ts_options a c
   = (Throw (JsError CannotExecute (message CannotExecute ts_tag)), store a c)
   /\ Part000.execute action p0_options a c
      = (Throw (JsError CannotExecute (message CannotExecute p0_tag)), store a c))
  /\ (state (store a c) = state c /\ result (store a c) = result c
      /\ error (store a c) = error c /\ log (store a c) = log c
      /\ sameRegistries c (store a c))
  /\ (toBoolean a = false -> store a c = c).
Proof.
  intros Hx Hts Hp0. split; [split|split].
  - unfold TaskTs.execute, bind at 1.
    now rewrite ts_execute_sync_refused.
  - unfold Part000.execute, bind at 1.
    now rewrite p0_execute_sync_refused.
  - repeat split; auto using state_store, result_store, error_store, log_store,
      debug_store, hooks_store.
  - intro Ha. unfold store. now rewrite Ha.
Qed.

(** X3. A run of [execute] whose action fulfils with [v] ends in
    [Completed] with the effective argument stored.  [src/src/task.ts]
    stores [v], leaves the error slot empty and returns [v].
    [src/unnamed/part_000] stores [v || undefined] and keeps the error slot
    as it was before the call; it returns the stored result, unless that
    old error is truthy and [throwOnFail] is set, in which case it raises
    the old error. *)
Theorem X3_execute_fulfilled (a : option A) (v : option R) (c : Cells) :
  isExecuting c = false ->
  TaskTs.canExecute ts_options (store a c) = true ->
  Part000.canExecute p0_options (store a c) = true ->
  action (effective a c) = Fulfilled v ->
  (let out := TaskTs.execute action ts_options a c in
   fst out = Normal v
   /\ state (snd out) = Completed /\ result (snd out) = v
   /\ error (snd out) = None /\ argument (snd out) = effective a c)
  /\ (let out := Part000.execute action p0_options a c in
      fst out = (if toBoolean (error c) && Part000.throwOnFail p0_options
                 then Throw (Rejection (error c)) else Normal (orUndefined v))
      /\ state (snd out) = Completed /\ result (snd out) = orUndefined v
      /\ error (snd out) = error c /\ argument (snd out) = effective a c).
Proof.
  intros Hx Hts Hp0 Hful. split; cbv zeta.
  - rewrite (ts_execute_fulfilled a v c) by assumption.
    unfold TaskTs.completed, TaskTs.started. js_run.
    repeat split. apply argument_store.
  - rewrite (p0_execute_fulfilled a v c) by assumption.
    unfold Part000.completed, Part000.started. js_run.
    repeat split; [apply error_store | apply argument_store].
Qed.

(** ** The log after a run of [execute], in closed form *)

Lemma ts_log_completed (a : option A) (v : option R) (c : Cells) :
  log (TaskTs.completed ts_options v (TaskTs.started ts_options a c))
  = log c
    ++ ((if toBoolean (debug c)
         then [ConsoleDebug ("Task executing [" ++ tagOrAnonymous ts_tag ++ "]")%string
                 {| ctx_state := Executing; ctx_argument := effective a c;
                ctx_result := None; ctx_error := None |}]
         else [])
        ++ hookCalls OnExecuting
             {| ctx_state := Executing; ctx_argument := effective a c;
                ctx_result := None; ctx_error := None |} (onExecutingHooks c)
        ++ [ActionCall (effective a c)])
    ++ ((if toBoolean (debug c)
         then [ConsoleDebug ("Task completed [" ++ tagOrAnonymous ts_tag ++ "]")%string
                 {| ctx_state := Completed; ctx_argument := effective a c;
                ctx_result := v; ctx_error := None |}]
         else [])
        ++ hookCalls OnCompleted
             {| ctx_state := Completed; ctx_argument := effective a c;
                ctx_result := v; ctx_error := None |} (onCompletedHooks c)
        ++ hookCalls OnFinished
             {| ctx_state := Completed; ctx_argument := effective a c;
                ctx_result := v; ctx_error := None |} (onFinishedHooks c)).
Proof.
  unfold TaskTs.completed, TaskTs.started, executingCalls, completedCalls,
    debugRecord, snapshot, store, effective.
  destruct (toBoolean a); js_run; now rewrite <- !app_assoc.
Qed.

Lemma ts_log_failed (a : option A) (e : option E) (c : Cells) :
  log (TaskTs.failed ts_options e (TaskTs.started ts_options a c))
  = log c
    ++ ((if toBoolean (debug c)
         then [ConsoleDebug ("Task executing [" ++ tagOrAnonymous ts_tag ++ "]")%string
                 {| ctx_state := Executing; ctx_argument := effective a c;
                ctx_result := None; ctx_error := None |}]
         else [])
        ++ hookCalls OnExecuting
             {| ctx_state := Executing; ctx_argument := effective a c;
                ctx_result := None; ctx_error := None |} (onExecutingHooks c)
        ++ [ActionCall (effective a c)])
    ++ ([ConsoleError ("Task failed [" ++ tagOrAnonymous ts_tag ++ "]")%string
           {| ctx_state := Failed; ctx_argument := effective a c;
                ctx_result := None; ctx_error := e |}]
        ++ hookCalls OnFailed
             {| ctx_state := Failed; ctx_argument := effective a c;
                ctx_result := None; ctx_error := e |} (onFailedHooks c)
        ++ hookCalls OnFinished
             {| ctx_state := Failed; ctx_argument := effective a c;
                ctx_result := None; ctx_error := e |} (onFinishedHooks c)).
Proof.
  unfold TaskTs.failed, TaskTs.started, executingCalls, failedCalls,
    debugRecord, snapshot, store, effective.
  destruct (toBoolean a); js_run; now rewrite <- !app_assoc.
Qed.

Lemma p0_log_completed (a : option A) (v : option R) (c : Cells) :
  log (Part000.completed p0_options v (Part000.started p0_options a c))
  = log c
    ++ ((if toBoolean (debug c)
         then [ConsoleDebug ("Task executing [" ++ tagOrAnonymous p0_tag ++ "]")%string
                 {| ctx_state := Executing; ctx_argument := effective a c;
                ctx_result := None; ctx_error := error c |}]
         else [])
        ++ hookCalls OnExecuting
             {| ctx_state := Executing; ctx_argument := effective a c;
                ctx_result := None; ctx_error := error c |} (onExecutingHooks c)
        ++ [ActionCall (effective a c)])
    ++ ((if toBoolean (debug c)
         then [ConsoleDebug ("Task completed [" ++ tagOrAnonymous p0_tag ++ "]")%string
                 {| ctx_state := Completed; ctx_argument := effective a c;
                ctx_result := orUndefined v; ctx_error := error c |}]
         else [])
        ++ hookCalls OnCompleted
             {| ctx_state := Completed; ctx_argument := effective a c;
                ctx_result := orUndefined v; ctx_error := error c |} (onCompletedHooks c)
        ++ hookCalls OnFinished
             {| ctx_state := Completed; ctx_argument := effective a c;
                ctx_result := orUndefined v; ctx_error := error c |} (onFinishedHooks c)).
Proof.
  unfold Part000.completed, Part000.started, executingCalls, completedCalls,
    debugRecord, snapshot, store, effective.
  destruct (toBoolean a); js_run; now rewrite <- !app_assoc.
Qed.

Lemma p0_log_failed (a : option A) (e : option E) (c : Cells) :
  log (Part000.failed p0_options e (Part000.started p0_options a c))
  = log c
    ++ ((if toBoolean (debug c)
         then [ConsoleDebug ("Task executing [" ++ tagOrAnonymous p0_tag ++ "]")%string
                 {| ctx_state := Executing; ctx_argument := effective a c;
                ctx_result := None; ctx_error := error c |}]
         else [])
        ++ hookCalls OnExecuting
             {| ctx_state := Executing; ctx_argument := effective a c;
                ctx_result := None; ctx_error := error c |} (onExecutingHooks c)
        ++ [ActionCall (effective a c)])
    ++ ([ConsoleError ("Task failed [" ++ tagOrAnonymous p0_tag ++ "]")%string
           {| ctx_state := Failed; ctx_argument := effective a c;
                ctx_result := None; ctx_error := e |}]
        ++ hookCalls OnFailed
             {| ctx_state := Failed; ctx_argument := effective a c;
                ctx_result := None; ctx_error := e |} (onFailedHooks c)
        ++ hookCalls OnFinished
             {| ctx_state := Failed; ctx_argument := effective a c;
                ctx_result := None; ctx_error := e |} (onFinishedHooks c)).
Proof.
  unfold Part000.failed, Part000.started, executingCalls, failedCalls,
    debugRecord, snapshot, store, effective.
  destruct (toBoolean a); js_run; now rewrite <- !app_assoc.
Qed.

(** X4. In a run of [execute] whose action fulfils, the callbacks called
    are those of [onExecuting], then those of [onCompleted], then those of
    [onFinished]: every registered callback once, in registration order, and
    no callback of another kind.  The callbacks of [onExecuting] see the
    state [Executing] with the result cleared; the later ones see
    [Completed] with the stored result.  Both versions
    ([src/unnamed/part_000] shows the error left by the previous run). *)
Theorem X4_hooks_of_fulfilled_run (a : option A) (v : option R) (c : Cells) :
  isExecuting c = false ->
  TaskTs.canExecute ts_options (store a c) = true ->
  Part000.canExecute p0_options (store a c) = true ->
  action (effective a c) = Fulfilled v ->
  hookCallsIn (log (snd (TaskTs.execute action ts_options a c)))
  = hookCallsIn (log c)
    ++ hookCalls OnExecuting
         {| ctx_state := Executing; ctx_argument := effective a c;
            ctx_result := None; ctx_error := None |} (onExecutingHooks c)
    ++ hookCalls OnCompleted
         {| ctx_state := Completed; ctx_argument := effective a c;
            ctx_result := v; ctx_error := None |} (onCompletedHooks c)
    ++ hookCalls OnFinished
         {| ctx_state := Completed; ctx_argument := effective a c;
            ctx_result := v; ctx_error := None |} (onFinishedHooks c)
  /\ hookCallsIn (log (snd (Part000.execute action p0_options a c)))
     = hookCallsIn (log c)
       ++ hookCalls OnExecuting
            {| ctx_state := Executing; ctx_argument := effective a c;
               ctx_result := None; ctx_error := error c |} (onExecutingHooks c)
       ++ hookCalls OnCompleted
            {| ctx_state := Completed; ctx_argument := effective a c;
               ctx_result := orUndefined v; ctx_error := error c |}
            (onCompletedHooks c)
       ++ hookCalls OnFinished
            {| ctx_state := Completed; ctx_argument := effective a c;
               ctx_result := orUndefined v; ctx_error := error c |}
            (onFinishedHooks c).
Proof.
  intros Hx Hts Hp0 Hful. split.
  - rewrite (ts_execute_fulfilled a v c) by assumption.
    cbn [snd]. rewrite ts_log_completed.
    rewrite !hookCallsIn_app, !hookCallsIn_hookCalls.
    destruct (toBoolean (debug c)); simpl; now rewrite ?app_nil_r.
  - rewrite (p0_execute_fulfilled a v c) by assumption.
    cbn [snd]. rewrite p0_log_completed.
    rewrite !hookCallsIn_app, !hookCallsIn_hookCalls.
    destruct (toBoolean (debug c)); simpl; now rewrite ?app_nil_r.
Qed.

(** X5. In a run of [execute] whose action rejects with [e], the callbacks
    called are those of [onExecuting], then those of [onFailed], then those
    of [onFinished]: every registered callback once, in registration order,
    and no callback of [onCompleted].  The callbacks of [onFailed] and
    [onFinished] see the state [Failed], the error [e] and no result.  This
    holds whether or not [execute] then re-raises [e].  Both versions. *)
Theorem X5_hooks_of_rejected_run (a : option A) (e : option E) (c : Cells) :
  isExecuting c = false ->
  TaskTs.canExecute ts_options (store a c) = true ->
  Part000.canExecute p0_options (store a c) = true ->
  action (effective a c) = Rejected e ->
  let failure :=
    {| ctx_state := Failed; ctx_argument := effective a c;
       ctx_result := None; ctx_error := e |} in
  hookCallsIn (log (snd (TaskTs.execute action ts_options a c)))
  = hookCallsIn (log c)
    ++ hookCalls OnExecuting
         {| ctx_state := Executing; ctx_argument := effective a c;
            ctx_result := None; ctx_error := None |} (onExecutingHooks c)
    ++ hookCalls OnFailed failure (onFailedHooks c)
    ++ hookCalls OnFinished failure (onFinishedHooks c)
  /\ hookCallsIn (log (snd (Part000.execute action p0_options a c)))
     = hookCallsIn (log c)
       ++ hookCalls OnExecuting
            {| ctx_state := Executing; ctx_argument := effective a c;
               ctx_result := None; ctx_error := error c |} (onExecutingHooks c)
       ++ hookCalls OnFailed failure (onFailedHooks c)
       ++ hookCalls OnFinished failure (onFinishedHooks c).
Proof.
  intros Hx Hts Hp0 Hrej failure. split.
  - rewrite (ts_execute_rejected a e c) by assumption.
    cbn [snd]. rewrite ts_log_failed.
    rewrite !hookCallsIn_app, !hookCallsIn_hookCalls.
    destruct (toBoolean (debug c)); simpl; now rewrite ?app_nil_r.
  - rewrite (p0_execute_rejected a e c) by assumption.
    cbn [snd]. rewrite p0_log_failed.
    rewrite !hookCallsIn_app, !hookCallsIn_hookCalls.
    destruct (toBoolean (debug c)); simpl; now rewrite ?app_nil_r.
Qed.

(** X6. What a run of [execute] writes to the console.  When the action
    rejects, one [console.error] record ["Task failed [tag]"] is written
    whatever the debug toggle and whatever [throwOnFail]; it is preceded by
    the [console.debug] record ["Task executing [tag]"] only when the toggle
    is truthy.  When the toggle is falsy and the action fulfils, nothing is
    written.  Both versions. *)
Theorem X6_console_of_run (a : option A) (c : Cells) :
  isExecuting c = false ->
  TaskTs.canExecute ts_options (store a c) = true ->
  Part000.canExecute p0_options (store a c) = true ->
  (forall e, action (effective a c) = Rejected e ->
     let failure :=
       {| ctx_state := Failed; ctx_argument := effective a c;
          ctx_result := None; ctx_error := e |} in
     consoleIn (log (snd (TaskTs.execute action ts_options a c)))
     = consoleIn (log c)
       ++ (if toBoolean (debug c)
           then [ConsoleDebug
                   ("Task executing [" ++ tagOrAnonymous ts_tag ++ "]")%string
                   {| ctx_state := Executing; ctx_argument := effective a c;
                      ctx_result := None; ctx_error := None |}]
           else [])
       ++ [ConsoleError ("Task failed [" ++ tagOrAnonymous ts_tag ++ "]")%string
             failure]
     /\ consoleIn (log (snd (Part000.execute action p0_options a c)))
        = consoleIn (log c)
          ++ (if toBoolean (debug c)
              then [ConsoleDebug
                      ("Task executing [" ++ tagOrAnonymous p0_tag ++ "]")%string
                      {| ctx_state := Executing; ctx_argument := effective a c;
                         ctx_result := None; ctx_error := error c |}]
              else [])
          ++ [ConsoleError ("Task failed [" ++ tagOrAnonymous p0_tag ++ "]")%string
                failure])
  /\ (forall v, action (effective a c) = Fulfilled v ->
      toBoolean (debug c) = false ->
      consoleIn (log (snd (TaskTs.execute action ts_options a c)))
      = consoleIn (log c)
      /\ consoleIn (log (snd (Part000.execute action p0_options a c)))
         = consoleIn (log c)).
Proof.
  intros Hx Hts Hp0. split.
  - intros e Hrej failure. split.
    + rewrite (ts_execute_rejected a e c) by assumption.
      cbn [snd]. rewrite ts_log_failed.
      rewrite !consoleIn_app, !consoleIn_hookCalls.
      destruct (toBoolean (debug c)); simpl; now rewrite ?app_nil_r.
    + rewrite (p0_execute_rejected a e c) by assumption.
      cbn [snd]. rewrite p0_log_failed.
      rewrite !consoleIn_app, !consoleIn_hookCalls.
      destruct (toBoolean (debug c)); simpl; now rewrite ?app_nil_r.
  - intros v Hful Hd. split.
    + rewrite (ts_execute_fulfilled a v c) by assumption.
      cbn [snd]. rewrite ts_log_completed, Hd.
      rewrite !consoleIn_app, !consoleIn_hookCalls.
      simpl; now rewrite ?app_nil_r.
    + rewrite (p0_execute_fulfilled a v c) by assumption.
      cbn [snd]. rewrite p0_log_completed, Hd.
      rewrite !consoleIn_app, !consoleIn_hookCalls.
      simpl; now rewrite ?app_nil_r.
Qed.

(** X7. No function of the controller removes, reorders or adds callbacks,
    and none writes the debug toggle: after [execute] (either half),
    [abort] and [reset] (either half), whether they return or throw, the six
    registries and the toggle are what they were.  Only registration and
    [configureTasks] change them.  Both versions. *)
Theorem X7_registries_are_kept (a : option A) (p : Promise (option R) E)
    (q : Promise (option A) E) (c : Cells) :
  (sameRegistries c (snd (TaskTs.execute_sync action ts_options a c))
   /\ sameRegistries c (snd (TaskTs.execute_resume ts_options p c))
   /\ sameRegistries c (snd (TaskTs.abort ts_options c))
   /\ sameRegistries c (snd (TaskTs.reset ts_options c)))
  /\ (sameRegistries c (snd (Part000.execute_sync action p0_options a c))
      /\ sameRegistries c (snd (Part000.execute_resume p0_options p c))
      /\ sameRegistries c (snd (Part000.abort p0_options c))
      /\ sameRegistries c (snd (Part000.reset_sync p0_options c))
      /\ sameRegistries c (snd (Part000.reset_resume q c))).
Proof.
  assert (Hstore : sameRegistries c (store a c)).
  { split; [intro kind; apply hooks_store | apply debug_store]. }
  split; [split; [|split; [|split]] | split; [|split; [|split; [|split]]]].
  - destruct (isExecuting c) eqn:Hx.
    + rewrite ts_execute_sync_executing by assumption. apply sameRegistries_refl.
    + destruct (TaskTs.canExecute ts_options (store a c)) eqn:Hc.
      * rewrite ts_execute_sync_started by assumption.
        destruct Hstore as [Hh Hd].
        split; [intro kind; rewrite <- Hh; now destruct kind | exact Hd].
      * now rewrite ts_execute_sync_refused by assumption.
  - destruct p as [v|e].
    + rewrite ts_execute_resume_fulfilled.
      split; [intro kind; now destruct kind | reflexivity].
    + rewrite ts_execute_resume_rejected.
      split; [intro kind; now destruct kind | reflexivity].
  - destruct (isExecuting c) eqn:Hx;
      [|rewrite ts_abort_refused by auto; apply sameRegistries_refl].
    destruct (TaskTs.optional ts_options TaskTs.options_abort) as [fn|] eqn:Hfn;
      [|rewrite ts_abort_refused by auto; apply sameRegistries_refl].
    rewrite (ts_abort_succeeds ts_options fn c) by assumption.
    split; [intro kind; now destruct kind | reflexivity].
  - destruct (isExecuting c) eqn:Hx.
    + rewrite ts_reset_executing by assumption. apply sameRegistries_refl.
    + rewrite ts_reset_idle by assumption.
      split; [intro kind; now destruct kind | reflexivity].
  - destruct (isExecuting c) eqn:Hx.
    + rewrite p0_execute_sync_executing by assumption. apply sameRegistries_refl.
    + destruct (Part000.canExecute p0_options (store a c)) eqn:Hc.
      * rewrite p0_execute_sync_started by assumption.
        destruct Hstore as [Hh Hd].
        split; [intro kind; rewrite <- Hh; now destruct kind | exact Hd].
      * now rewrite p0_execute_sync_refused by assumption.
  - destruct p as [v|e].
    + rewrite p0_execute_resume_fulfilled.
      split; [intro kind; now destruct kind | reflexivity].
    + rewrite p0_execute_resume_rejected.
      split; [intro kind; now destruct kind | reflexivity].
  - destruct (isExecuting c) eqn:Hx;
      [|rewrite p0_abort_refused by auto; apply sameRegistries_refl].
    destruct (Part000.optional p0_options Part000.options_abort) as [fn|] eqn:Hfn;
      [|rewrite p0_abort_refused by auto; apply sameRegistries_refl].
    destruct (Part000.canAbort p0_options c) eqn:Hg;
      [|rewrite p0_abort_refused by auto; apply sameRegistries_refl].
    rewrite (p0_abort_succeeds p0_options fn c) by assumption.
    split; [intro kind; now destruct kind | reflexivity].
  - unfold Part000.reset_sync. js_run.
    destruct (TaskState_eqb (state c) Executing);
      [apply sameRegistries_refl|].
    destruct (Part000.optional p0_options Part000.options_createArgument);
      js_run; split; try reflexivity; intro kind; now destruct kind.
  - unfold Part000.reset_resume.
    destruct q as [v|e]; js_run;
      split; try reflexivity; intro kind; now destruct kind.
Qed.

(** X8. A callback registered for a kind is called by the next dispatch of
    that kind after all the callbacks registered before it, with the same
    context; a callback registered twice is called twice; registering for
    one kind changes nothing in the dispatch of another. *)
Theorem X8_registration_order (kind kind' : HookKind) (fn : Fn) (c : Cells) :
  log (snd (dispatch kind' (snd (register kind fn c))))
  = log (snd (dispatch kind' c))
    ++ (if HookKind_eqb kind kind' then [HookCall kind' fn (snapshot c)] else []).
Proof.
  rewrite !dispatch_run. cbn [snd].
  rewrite register_appends.
  replace (snapshot (snd (register kind fn c))) with (snapshot c) by reflexivity.
  replace (log (snd (register kind fn c))) with (log c) by reflexivity.
  js_run.
  destruct (HookKind_eqb kind kind').
  - unfold hookCalls. now rewrite map_app, app_assoc.
  - now rewrite app_nil_r.
Qed.

(** X9. After a successful [abort] the controller is no longer
    [Executing], so the guard of [execute] lets a new call through while the
    aborted action is still pending: the action is called a second time.
    [reset] is let through in the same way.  Both versions. *)
Theorem X9_abort_reopens_execute (a : option A) (c c_ts c_p0 : Cells) :
  TaskTs.abort ts_options c = (Normal tt, c_ts) ->
  Part000.abort p0_options c = (Normal tt, c_p0) ->
  TaskTs.canExecute ts_options (store a c_ts) = true ->
  Part000.canExecute p0_options (store a c_p0) = true ->
  (TaskTs.execute_sync action ts_options a c_ts
   = (Normal (action (effective a c)), TaskTs.started ts_options a c_ts)
   /\ fst (TaskTs.reset ts_options c_ts) = Normal tt)
  /\ (Part000.execute_sync action p0_options a c_p0
      = (Normal (action (effective a c)), Part000.started p0_options a c_p0)
      /\ state (snd (Part000.reset_sync p0_options c_p0)) = Idle).
Proof.
  intros Hts Hp0 Hcts Hcp0.
  apply ts_abort_normal in Hts. destruct Hts as [_ [fn [Hfn ->]]].
  apply p0_abort_normal in Hp0. destruct Hp0 as [_ [_ [_ ->]]].
  split; split.
  - rewrite ts_execute_sync_started by (assumption || reflexivity).
    reflexivity.
  - now rewrite ts_reset_idle by reflexivity.
  - rewrite p0_execute_sync_started by (assumption || reflexivity).
    reflexivity.
  - unfold Part000.reset_sync, Part000.aborted. js_run.
    destruct (Part000.optional p0_options Part000.options_createArgument);
      js_run; reflexivity.
Qed.

(** X10. In [src/src/task.ts], [reset] outside [Executing] brings state,
    argument, result and error back to what they were when [useTask]
    returned: [Idle], a fresh output of [createArgument] (or [undefined]),
    and no result or error. *)
Theorem X10_reset_restores_construction (c : Cells) :
  isExecuting c = false ->
  snapshot (snd (TaskTs.reset ts_options c))
  = snapshot (TaskTs.useTask ts_options).
Proof.
  intro Hx. rewrite ts_reset_idle by assumption.
  unfold TaskTs.idle, TaskTs.useTask, TaskTs.createdArgument, snapshot.
  js_run.
  now destruct (TaskTs.optional ts_options TaskTs.options_createArgument).
Qed.

(** X11. In [src/unnamed/part_000], when the promise of [createArgument]
    rejects with [e], [reset] raises [e] after it has written [Idle]:
    argument, result and error keep their content and no callback of
    [onIdle] is called. *)
Theorem X11_reset_with_rejecting_factory (f : unit -> Promise (option A) E)
    (e : option E) (c : Cells) :
  isExecuting c = false ->
  Part000.optional p0_options Part000.options_createArgument = Some f ->
  f tt = Rejected e ->
  let out := Part000.reset p0_options c in
  fst out = Throw (Rejection e)
  /\ state (snd out) = Idle
  /\ argument (snd out) = argument c
  /\ result (snd out) = result c
  /\ error (snd out) = error c
  /\ hookCallsIn (log (snd out)) = hookCallsIn (log c).
Proof.
  intros Hx Hopt Hf out. subst out.
  rewrite (p0_reset_factory_rejects p0_options f e c) by assumption.
  js_run. repeat split.
  rewrite hookCallsIn_app. simpl. apply app_nil_r.
Qed.

(** ** Sequences of calls *)

Lemma atRest_quiescent (c : Cells) : atRest c -> quiescent c.
Proof. unfold atRest, quiescent. intuition. Qed.

Lemma quiescent_not_executing (c : Cells) : quiescent c -> isExecuting c = false.
Proof.
  unfold quiescent, isExecuting. intros [-> | [-> | ->]]; reflexivity.
Qed.

Lemma ts_perform_atRest (c : Cells) (call : Call A Fn) :
  atRest c -> atRest (ts_perform action ts_options c call).
Proof.
  intro Hrest. pose proof (quiescent_not_executing c (atRest_quiescent c Hrest)) as Hx.
  destruct call as [a | | | kind fn | d]; cbn [ts_perform].
  - destruct (TaskTs.canExecute ts_options (store a c)) eqn:Hc.
    + destruct (action (effective a c)) as [v|e] eqn:Hact.
      * rewrite (ts_execute_fulfilled a v c) by assumption.
        right; left. split; reflexivity.
      * rewrite (ts_execute_rejected a e c) by assumption.
        right; right. split; reflexivity.
    + unfold TaskTs.execute, bind at 1.
      rewrite ts_execute_sync_refused by assumption. cbn [snd].
      unfold atRest. now rewrite state_store, result_store, error_store.
  - now rewrite ts_abort_refused by auto.
  - rewrite ts_reset_idle by assumption. left. repeat split.
  - exact Hrest.
  - exact Hrest.
Qed.

Lemma p0_reset_state (c : Cells) :
  isExecuting c = false -> state (snd (Part000.reset p0_options c)) = Idle.
Proof.
  intro Hx. unfold Part000.reset, Part000.reset_sync, Part000.reset_resume.
  js_run. rewrite Hx.
  destruct (Part000.optional p0_options Part000.options_createArgument) as [f|];
    js_run; [destruct (f tt); js_run|]; reflexivity.
Qed.

Lemma p0_perform_quiescent (c : Cells) (call : Call A Fn) :
  quiescent c -> quiescent (p0_perform action p0_options c call).
Proof.
  intro Hq. pose proof (quiescent_not_executing c Hq) as Hx.
  destruct call as [a | | | kind fn | d]; cbn [p0_perform].
  - destruct (Part000.canExecute p0_options (store a c)) eqn:Hc.
    + destruct (action (effective a c)) as [v|e] eqn:Hact.
      * rewrite (p0_execute_fulfilled a v c) by assumption.
        right; left. reflexivity.
      * rewrite (p0_execute_rejected a e c) by assumption.
        right; right. reflexivity.
    + unfold Part000.execute, bind at 1.
      rewrite p0_execute_sync_refused by assumption. cbn [snd].
      unfold quiescent. now rewrite state_store.
  - now rewrite p0_abort_refused by auto.
  - left. now apply p0_reset_state.
  - exact Hq.
  - exact Hq.
Qed.

Lemma ts_useTask_atRest : atRest (TaskTs.useTask ts_options : Cells).
Proof.
  unfold TaskTs.useTask.
  destruct (TaskTs.optional ts_options TaskTs.options_createArgument);
    left; repeat split.
Qed.

Lemma p0_useTask_quiescent : quiescent (Part000.useTask p0_options : Cells).
Proof.
  unfold Part000.useTask.
  destruct (toBoolean (Part000.optional p0_options Part000.options_argument));
    left; reflexivity.
Qed.

Lemma ts_run_atRest (calls : list (Call A Fn)) :
  atRest (ts_run action ts_options calls).
Proof.
  unfold ts_run. generalize (TaskTs.useTask ts_options : Cells), ts_useTask_atRest.
  induction calls as [|call rest IH]; intros c Hc; simpl; [exact Hc|].
  apply IH. now apply ts_perform_atRest.
Qed.

Lemma p0_run_quiescent (calls : list (Call A Fn)) :
  quiescent (p0_run action p0_options calls).
Proof.
  unfold p0_run. generalize (Part000.useTask p0_options : Cells), p0_useTask_quiescent.
  induction calls as [|call rest IH]; intros c Hc; simpl; [exact Hc|].
  apply IH. now apply p0_perform_quiescent.
Qed.

(** X12. In [src/src/task.ts], for a caller that lets every [execute]
    settle before its next call, the slots always agree with the state,
    whatever the calls and their arguments and whatever the action does:
    [Idle] comes with no result and no error, [Completed] with no error,
    [Failed] with no result, and no other state is seen.  In particular
    result and error are never both set. *)
Theorem X12_slots_agree_with_state (calls : list (Call A Fn)) :
  let c := ts_run action ts_options calls in
  ((state c = Idle /\ result c = None /\ error c = None)
   \/ (state c = Completed /\ error c = None)
   \/ (state c = Failed /\ result c = None))
  /\ (result c = None \/ error c = None).
Proof.
  cbv zeta. pose proof (ts_run_atRest calls) as Hrest.
  split; [exact Hrest|].
  destruct Hrest as [[_ [Hr _]] | [[_ He] | [_ Hr]]]; auto.
Qed.

(** X13. For a caller that lets every [execute] settle before its next
    call, the controller is never seen [Executing] or [Aborted]: [abort]
    can only succeed while an [execute] is awaiting, and between settled
    calls it always throws the "cannot abort" error and changes nothing.
    Both versions. *)
Theorem X13_abort_needs_a_pending_execute (calls : list (Call A Fn)) :
  (let c := ts_run action ts_options calls in
   (state c = Idle \/ state c = Completed \/ state c = Failed)
   /\ TaskTs.abort ts_options c
      = (Throw (JsError CannotAbort (message CannotAbort ts_tag)), c))
  /\ (let c := p0_run action p0_options calls in
      (state c = Idle \/ state c = Completed \/ state c = Failed)
      /\ Part000.abort p0_options c
         = (Throw (JsError CannotAbort (message CannotAbort p0_tag)), c)).
Proof.
  split; cbv zeta.
  - pose proof (atRest_quiescent _ (ts_run_atRest calls)) as Hq.
    split; [exact Hq|].
    apply ts_abort_refused. left. now apply quiescent_not_executing.
  - pose proof (p0_run_quiescent calls) as Hq.
    split; [exact Hq|].
    apply p0_abort_refused. left. now apply quiescent_not_executing.
Qed.

(** X14. In [src/unnamed/part_000] with an argument factory, [reset] writes
    [Idle] before it awaits the factory, so an [execute] called during that
    [await] is let through; when the factory then fulfils with [v], the
    rest of [reset] runs without looking at the state: it replaces the
    argument the action was called with by [v], clears result and error,
    and calls the callbacks of [onIdle] while the state is [Executing]. *)
Theorem X14_reset_overlaps_execute (f : unit -> Promise (option A) E)
    (v a : option A) (c : Cells) :
  isExecuting c = false ->
  Part000.optional p0_options Part000.options_createArgument = Some f ->
  f tt = Fulfilled v ->
  Part000.canExecute p0_options (store a c) = true ->
  let r1 := Part000.reset_sync p0_options c in
  let e1 := Part000.execute_sync action p0_options a (snd r1) in
  let r2 := Part000.reset_resume (f tt) (snd e1) in
  fst r1 = Normal (Some (f tt))
  /\ state (snd r1) = Idle
  /\ fst e1 = Normal (action (effective a c))
  /\ fst r2 = Normal tt
  /\ state (snd r2) = Executing
  /\ argument (snd r2) = v
  /\ result (snd r2) = None /\ error (snd r2) = None
  /\ log (snd r2)
     = log (snd e1)
       ++ hookCalls OnIdle
            {| ctx_state := Executing; ctx_argument := v;
               ctx_result := None; ctx_error := None |} (onIdleHooks c).
Proof.
  intros Hx Hopt Hf Hc r1 e1 r2.
  assert (Hr1 : r1 = (Normal (Some (f tt)),
                      with_log (log c ++ [CreateArgumentCall]) (with_state Idle c))).
  { subst r1. unfold Part000.reset_sync. js_run. rewrite Hx, Hopt. reflexivity. }
  assert (He1 : e1 = (Normal (action (effective a c)),
                      Part000.started p0_options a (snd r1))).
  { subst e1. rewrite Hr1. cbn [snd].
    rewrite p0_execute_sync_started; [reflexivity | reflexivity |].
    unfold Part000.canExecute, store in *.
    destruct (toBoolean a); exact Hc. }
  subst r2. rewrite He1, Hr1, Hf. cbn [fst snd].
  unfold Part000.reset_resume, Part000.started, store. js_run.
  repeat split; destruct (toBoolean a); reflexivity.
Qed.

(** X15. In [src/unnamed/part_000] the initial argument is stored only when
    it is truthy: with a falsy [options.argument] (such as [0]) the
    controller starts with no argument, and the first [execute()] calls the
    action with [undefined]. *)
Theorem X15_falsy_initial_argument (x : A) :
  Part000.optional p0_options Part000.options_argument = Some x ->
  truthy x = false ->
  Part000.canExecute p0_options (fresh None : Cells) = true ->
  (Part000.useTask p0_options : Cells) = fresh None
  /\ fst (Part000.execute_sync action p0_options None (Part000.useTask p0_options))
     = Normal (action None)
  /\ In (ActionCall None)
        (log (snd (Part000.execute_sync action p0_options None
                     (Part000.useTask p0_options)))).
Proof.
  intros Hopt Hx Hc.
  assert (Huse : (Part000.useTask p0_options : Cells) = fresh None).
  { unfold Part000.useTask. rewrite Hopt. cbn [toBoolean]. now rewrite Hx. }
  rewrite Huse. split; [reflexivity|].
  rewrite p0_execute_sync_started by (reflexivity || exact Hc).
  split; [reflexivity|].
  unfold Part000.started, executingCalls. js_run.
  rewrite !in_app_iff. do 3 right. now left.
Qed.

(** X16. A settlement is written into whatever the controller has become.
    After a successful [abort] and a [reset], the controller is [Idle] with
    the argument of the reset; when the aborted action then fulfils with
    [r], the controller turns [Completed] with [r] as its result, although
    the stored argument is the one installed by [reset], not the one the
    action was called with.  Both versions ([v] is what the factory of
    [src/unnamed/part_000] fulfils with). *)
Theorem X16_settlement_after_reset (v : option A) (r : option R)
    (c c_ts c_p0 : Cells) :
  TaskTs.abort ts_options c = (Normal tt, c_ts) ->
  Part000.abort p0_options c = (Normal tt, c_p0) ->
  (forall f,
     Part000.optional p0_options Part000.options_createArgument = Some f ->
     f tt = Fulfilled v) ->
  (let c2 := snd (TaskTs.reset ts_options c_ts) in
   let c3 := snd (TaskTs.execute_resume ts_options (Fulfilled r) c2) in
   state c2 = Idle
   /\ state c3 = Completed /\ result c3 = r
   /\ argument c3 = TaskTs.createdArgument ts_options)
  /\ (let c2 := snd (Part000.reset p0_options c_p0) in
      let c3 := snd (Part000.execute_resume p0_options (Fulfilled r) c2) in
      state c2 = Idle
      /\ state c3 = Completed /\ result c3 = orUndefined r
      /\ argument c3 = Part000.createdArgument p0_options v).
Proof.
  intros Hts Hp0 Hf.
  apply ts_abort_normal in Hts. destruct Hts as [_ [fn [Hfn ->]]].
  apply p0_abort_normal in Hp0. destruct Hp0 as [_ [_ [_ ->]]].
  split; cbv zeta.
  - rewrite ts_reset_idle by reflexivity.
    rewrite ts_execute_resume_fulfilled.
    unfold TaskTs.completed, TaskTs.idle. js_run. repeat split.
  - rewrite (p0_reset_idle p0_options v) by (reflexivity || assumption).
    rewrite p0_execute_resume_fulfilled.
    unfold Part000.completed, Part000.idle. js_run. repeat split.
Qed.

End Further.

(* ------------------------------------------------------------------ *)
(** * The further properties on the concrete controllers *)

Section FurtherOnExamples.

Import Examples MoreExamples.
Local Open Scope Z_scope.

Lemma X1_witness :
  isExecuting executing = true
  /\ TaskTs.reset ts_full executing
     = (Throw (JsError CannotReset "Cannot reset task Sum."), executing)
  /\ Part000.reset p0_full executing
     = (Throw (JsError CannotReset "Cannot reset task Sum."), executing).
Proof.
  split; [reflexivity|].
  apply (X1_reset_while_executing ts_full p0_full executing). reflexivity.
Defined.

Lemma X2_witness :
  positive None = false
  /\ TaskTs.execute checked ts_full None (fresh None)
     = (Throw (JsError CannotExecute "Cannot execute task Sum"), fresh None)
  /\ Part000.execute checked p0_full None (fresh None)
     = (Throw (JsError CannotExecute "Cannot execute task Sum"), fresh None).
Proof.
  split; [reflexivity|].
  exact (proj1 (X2_execute_refused checked ts_full p0_full None (fresh None)
                  eq_refl eq_refl eq_refl)).
Defined.

Lemma X3_witness :
  fst (TaskTs.execute checked ts_full (Some 3) finished) = Normal (Some 6)
  /\ error (snd (TaskTs.execute checked ts_full (Some 3) finished)) = None
  /\ fst (Part000.execute checked p0_full (Some 3) finished)
     = Throw (Rejection (Some "boom"))
  /\ state (snd (Part000.execute checked p0_full (Some 3) finished)) = Completed.
Proof.
  pose proof (X3_execute_fulfilled checked ts_full p0_full (Some 3) (Some 6)
                finished eq_refl eq_refl eq_refl eq_refl)
    as [[Hts [_ [_ [Herr _]]]] [Hp0 [Hstate _]]].
  repeat split; assumption.
Defined.

Lemma X4_witness :
  let settled :=
    {| ctx_state := Completed; ctx_argument := Some 3;
       ctx_result := Some 6; ctx_error := None |} in
  hookCallsIn (log (snd (TaskTs.execute checked ts_full (Some 3) listening)))
  = [HookCall OnExecuting "executing"
       {| ctx_state := Executing; ctx_argument := Some 3;
          ctx_result := None; ctx_error := None |};
     HookCall OnCompleted "completed" settled;
     HookCall OnFinished "finished" settled].
Proof.
  pose proof (X4_hooks_of_fulfilled_run checked ts_full p0_full (Some 3) (Some 6)
                listening eq_refl eq_refl eq_refl eq_refl) as [Hts _].
  exact Hts.
Defined.

Lemma X5_witness :
  let failure :=
    {| ctx_state := Failed; ctx_argument := Some (-1);
       ctx_result := None; ctx_error := Some "boom" |} in
  hookCallsIn (log (snd (Part000.execute checked p0_none (Some (-1)) listening)))
  = [HookCall OnExecuting "executing"
       {| ctx_state := Executing; ctx_argument := Some (-1);
          ctx_result := None; ctx_error := None |};
     HookCall OnFailed "failed" failure;
     HookCall OnFinished "finished" failure].
Proof.
  pose proof (X5_hooks_of_rejected_run checked ts_none p0_none (Some (-1))
                (Some "boom") listening eq_refl eq_refl eq_refl eq_refl)
    as [_ Hp0].
  exact Hp0.
Defined.

Lemma X6_witness :
  consoleIn (log (snd (Part000.execute checked p0_none (Some (-1)) listening)))
  = [ConsoleError "Task failed [Anonymous]"
       {| ctx_state := Failed; ctx_argument := Some (-1);
          ctx_result := None; ctx_error := Some "boom" |}]
  /\ consoleIn (log (snd (TaskTs.execute checked ts_none (Some 3) listening)))
     = [].
Proof.
  pose proof (X6_console_of_run checked ts_none p0_none (Some (-1)) listening
                eq_refl eq_refl eq_refl) as [Hrejected _].
  pose proof (X6_console_of_run checked ts_none p0_none (Some 3) listening
                eq_refl eq_refl eq_refl) as [_ Hfulfilled].
  destruct (Hrejected (Some "boom") eq_refl) as [_ Hp0].
  destruct (Hfulfilled (Some 6) eq_refl eq_refl) as [Hts _].
  split; assumption.
Defined.

Lemma X9_witness :
  fst (TaskTs.execute_sync checked ts_full (Some 2)
         (snd (TaskTs.abort ts_full executing)))
  = Normal (Fulfilled (Some 4))
  /\ fst (Part000.execute_sync checked p0_full (Some 2)
            (snd (Part000.abort p0_full executing)))
     = Normal (Fulfilled (Some 4)).
Proof.
  pose proof (X9_abort_reopens_execute checked ts_full p0_full (Some 2) executing
                (snd (TaskTs.abort ts_full executing))
                (snd (Part000.abort p0_full executing))
                eq_refl eq_refl eq_refl eq_refl)
    as [[Hts _] [Hp0 _]].
  split; [now rewrite Hts | now rewrite Hp0].
Defined.

Lemma X10_witness :
  isExecuting finished = false
  /\ snapshot (snd (TaskTs.reset ts_full finished))
     = {| ctx_state := Idle; ctx_argument := Some 1;
          ctx_result := None; ctx_error := None |}.
Proof.
  split; [reflexivity|].
  exact (X10_reset_restores_construction ts_full finished eq_refl).
Defined.

Lemma X11_witness :
  fst (Part000.reset p0_failingFactory finished) = Throw (Rejection (Some "offline"))
  /\ state (snd (Part000.reset p0_failingFactory finished)) = Idle
  /\ error (snd (Part000.reset p0_failingFactory finished)) = Some "boom".
Proof.
  pose proof (X11_reset_with_rejecting_factory p0_failingFactory
                (fun _ => Rejected (Some "offline")) (Some "offline") finished
                eq_refl eq_refl eq_refl)
    as [Hout [Hstate [_ [_ [Herr _]]]]].
  repeat split; assumption.
Defined.

Lemma X14_witness :
  let r1 := Part000.reset_sync p0_full completedOnce in
  let e1 := Part000.execute_sync checked p0_full (Some 2) (snd r1) in
  let r2 := Part000.reset_resume (Fulfilled (Some 1)) (snd e1) in
  fst e1 = Normal (Fulfilled (Some 4))
  /\ state (snd r2) = Executing
  /\ argument (snd r2) = Some 1.
Proof.
  pose proof (X14_reset_overlaps_execute checked p0_full
                (fun _ => Fulfilled (Some 1)) (Some 1) (Some 2) completedOnce
                eq_refl eq_refl eq_refl eq_refl)
    as [_ [_ [He1 [_ [Hstate [Harg _]]]]]].
  repeat split; assumption.
Defined.

Lemma X15_witness :
  (Part000.useTask p0_zero : Cells Z Z string string) = fresh None
  /\ fst (Part000.execute_sync checked p0_zero None (Part000.useTask p0_zero))
     = Normal (Rejected None).
Proof.
  pose proof (X15_falsy_initial_argument checked p0_zero 0
                eq_refl eq_refl eq_refl) as [Huse [Hcall _]].
  split; assumption.
Defined.

Lemma X16_witness :
  state (snd (TaskTs.execute_resume ts_full (Fulfilled (Some 2))
                (snd (TaskTs.reset ts_full (snd (TaskTs.abort ts_full executing))))))
  = Completed
  /\ state (snd (Part000.execute_resume p0_full (Fulfilled (Some 2))
                   (snd (Part000.reset p0_full
                           (snd (Part000.abort p0_full executing))))))
     = Completed.
Proof.
  pose proof (X16_settlement_after_reset ts_full p0_full (Some 1) (Some 2)
                executing
                (snd (TaskTs.abort ts_full executing))
                (snd (Part000.abort p0_full executing))
                eq_refl eq_refl) as Hsettle.
  destruct Hsettle as [[_ [Hts _]] [_ [Hp0 _]]].
  - intros f Hf. injection Hf as <-. reflexivity.
  - split; assumption.
Defined.

End FurtherOnExamples.
